(** * Prescription lifecycle and dispatch workflow of the medical front-end

    A shallow embedding of the client logic found in
    - [lib/api.ts]                          ([apiRequest], [ApiError]),
    - [types/api.ts]                        (roles, statuses, summaries),
    - [components/PrescriptionsPanel.tsx]   (list, detail, advance),
    - [components/PharmacySearchPanel.tsx]  (pharmacy search, dispatch),
    - [App.tsx]                             ([refreshPendingReceivedCount]).

    React state is modelled as an explicit store that the handlers update
    through their setters; the values a handler reads are the ones captured
    by the render it belongs to.  The remote service is an arbitrary
    transition system answering one request at a time. *)

From Stdlib Require Import ZArith List String Ascii Bool Lia.
From Stdlib Require Import DecimalString.
Import ListNotations.
Local Open Scope string_scope.
Local Open Scope Z_scope.
Local Set Warnings "-register-all".

(** ** Values exchanged with the remote service *)

Module Js.

(** Parsed JSON, i.e. what [response.json()] resolves to.  Numbers are the
    integers (identifiers, counts); a text body is a [JStr]. *)
Inductive Json : Type :=
| JNull
| JBool (b : bool)
| JNum (n : Z)
| JStr (s : string)
| JArr (items : list Json)
| JObj (fields : list (string * Json)).

(** [`${n}`] and [String(n)] on an integer. *)
Definition numberToString (n : Z) : string :=
  NilZero.string_of_int (Z.to_int n).

Fixpoint join (sep : string) (parts : list string) : string :=
  match parts with
  | [] => EmptyString
  | [p] => p
  | p :: rest => p ++ sep ++ join sep rest
  end.

(** [String(v)].  An array is its elements joined by commas, with [null]
    elements rendered empty; any other object is ["[object Object]"]. *)
Fixpoint toString (v : Json) : string :=
  match v with
  | JNull => "null"
  | JBool true => "true"
  | JBool false => "false"
  | JNum n => numberToString n
  | JStr s => s
  | JArr items =>
      join "," (map (fun item => match item with
                                 | JNull => EmptyString
                                 | _ => toString item
                                 end) items)
  | JObj _ => "[object Object]"
  end.

(** [key in obj] and [obj[key]] on a parsed object. *)
Fixpoint getField (key : string) (fields : list (string * Json)) : option Json :=
  match fields with
  | [] => None
  | (k, v) :: rest => if String.eqb k key then Some v else getField key rest
  end.

(** [haystack.includes(needle)]. *)
Fixpoint includes (haystack needle : string) : bool :=
  if String.prefix needle haystack then true
  else match haystack with
       | EmptyString => false
       | String _ rest => includes rest needle
       end.

(** [encodeURIComponent(s)] on well-formed text, byte by byte of its UTF-8
    encoding: letters, digits and [- _ . ! ~ * ' ( )] are kept, every other
    byte becomes [%XX]. *)
Definition unreserved (c : ascii) : bool :=
  let n := nat_of_ascii c in
  ((65 <=? n) && (n <=? 90) || (97 <=? n) && (n <=? 122)
   || (48 <=? n) && (n <=? 57)
   || existsb (Nat.eqb n) [45; 95; 46; 33; 126; 42; 39; 40; 41])%nat%bool.

Definition hexDigit (n : nat) : ascii :=
  ascii_of_nat (if (n <? 10)%nat then 48 + n else 55 + n)%nat.

Fixpoint encodeURIComponent (s : string) : string :=
  match s with
  | EmptyString => EmptyString
  | String c rest =>
      if unreserved c then String c (encodeURIComponent rest)
      else
        let n := nat_of_ascii c in
        String "%" (String (hexDigit (n / 16)) (String (hexDigit (n mod 16))
          (encodeURIComponent rest)))
  end.

(** Truthiness of a string: only the empty string is falsy. *)
Definition truthy (s : string) : bool :=
  match s with
  | EmptyString => false
  | String _ _ => true
  end.

End Js.
Import Js.

(** ** Data contracts ([types/api.ts]) *)

Inductive Role : Type := DOCTOR | PHARMACIST.

Inductive PrescriptionStatus : Type := CREATED | RECEIVED | DISPENSING | COMPLETED.

Definition Role_eqb (a b : Role) : bool :=
  match a, b with
  | DOCTOR, DOCTOR | PHARMACIST, PHARMACIST => true
  | _, _ => false
  end.

Definition PrescriptionStatus_eqb (a b : PrescriptionStatus) : bool :=
  match a, b with
  | CREATED, CREATED | RECEIVED, RECEIVED
  | DISPENSING, DISPENSING | COMPLETED, COMPLETED => true
  | _, _ => false
  end.

Definition statusName (s : PrescriptionStatus) : string :=
  match s with
  | CREATED => "CREATED"
  | RECEIVED => "RECEIVED"
  | DISPENSING => "DISPENSING"
  | COMPLETED => "COMPLETED"
  end.

Record PharmacySummary : Type := {
  id : Z;
  name : string;
  address : string;
  phone : option string;
  hospitalId : option Z;
  hospitalName : option string
}.

Record PatientRef : Type := {
  patientId : Z;
  patientName : string
}.

Record DoctorSummary : Type := {
  doctorId : Z;
  doctorName : string;
  doctorHospitalName : option string;
  departmentName : option string
}.

Record PrescriptionSummary : Type := {
  prescriptionId : Z;
  medicalRecordId : Z;
  issueDate : string;
  status : PrescriptionStatus;
  diagnosis : string;
  patient : PatientRef;
  doctor : DoctorSummary
}.

Record MedicineInfo : Type := {
  medicineId : option Z;
  medicineName : string;
  manufacturer : option string;
  effect : option string;
  instruction : option string;
  dosage : option string
}.

(** [PrescriptionDetail extends PrescriptionSummary]. *)
Record PrescriptionDetail : Type := {
  summary :> PrescriptionSummary;
  pharmacy : option PharmacySummary;
  medicines : list MedicineInfo;
  notes : option string
}.

(** ** The API client ([lib/api.ts]) *)

Inductive Method : Type := GET | POST | PATCH.

(** The five calls the panels and the application shell make. *)
Inductive Endpoint : Type :=
| ListPrescriptions
| GetDetail (prescription : Z)
| PatchStatus (prescription : Z) (next : PrescriptionStatus)
| Dispatch (prescription : string) (pharmacyId : Z)
| SearchPharmacies (keyword : string).

(** The type argument [T] of [apiRequest<T>] at each call site; the result
    of the two mutating calls is discarded by their callers. *)
Definition ReplyType (q : Endpoint) : Type :=
  match q with
  | ListPrescriptions => list PrescriptionSummary
  | GetDetail _ => PrescriptionDetail
  | PatchStatus _ _ => unit
  | Dispatch _ _ => unit
  | SearchPharmacies _ => list PharmacySummary
  end.

(** A call as [apiRequest] receives it: the path, method and body are
    those of the endpoint, [bearer] is the [token] option. *)
Record Request : Type := {
  endpoint : Endpoint;
  bearer : option string
}.

Definition requestMethod (q : Endpoint) : Method :=
  match q with
  | PatchStatus _ _ => PATCH
  | Dispatch _ _ => POST
  | _ => GET
  end.

(** The [path] argument, to which [BASE_URL] is prefixed. *)
Definition requestPath (q : Endpoint) : string :=
  match q with
  | ListPrescriptions => "/prescriptions"
  | GetDetail n => "/prescriptions/" ++ numberToString n
  | PatchStatus n _ => "/prescriptions/" ++ numberToString n ++ "/status"
  | Dispatch p _ => "/prescriptions/" ++ p ++ "/dispatch"
  | SearchPharmacies kw =>
      "/pharmacies?keyword=" ++ encodeURIComponent kw ++ "&size=10"
  end.

(** The [json] option, serialised into the request body. *)
Definition requestJson (q : Endpoint) : option Json :=
  match q with
  | PatchStatus _ next => Some (JObj [("status", JStr (statusName next))])
  | Dispatch _ pharmacyId => Some (JObj [("pharmacyId", JNum pharmacyId)])
  | _ => None
  end.

(** What [response.text()] and [response.json()] settle to; [None] is a
    rejected promise. *)
Record Body : Type := {
  bodyText : option string;
  bodyJson : option Json
}.

(** What [fetch] settles to.  A response with [response.ok] carries a
    payload of the type the call site asserts ([payload as T]). *)
Inductive Reply (T : Type) : Type :=
| Rejected
| Ok2xx (httpStatus : Z) (data : T)
| NotOk (httpStatus : Z) (contentType : option string) (body : Body).
Arguments Rejected {T}.
Arguments Ok2xx {T}.
Arguments NotOk {T}.

(** What a call throws: an [ApiError], or anything else (a rejected
    [fetch]). *)
Inductive Thrown : Type :=
| ApiError (message : string) (errorStatus : Z) (payload : Json)
| OtherError.

Inductive Result (T : Type) : Type :=
| Returned (value : T)
| Threw (error : Thrown).
Arguments Returned {T}.
Arguments Threw {T}.

(** [contentType?.includes('application/json') ? await response.json().catch(() => null)
                                               : await response.text().catch(() => null)] *)
Definition readPayload (contentType : option string) (body : Body) : Json :=
  let isJson := match contentType with
                | Some ct => includes ct "application/json"
                | None => false
                end in
  if isJson then
    match bodyJson body with Some j => j | None => JNull end
  else
    match bodyText body with Some s => JStr s | None => JNull end.

Definition genericFailure : string := "요청이 실패했습니다.".

Definition typeofObject (payload : Json) : bool :=
  match payload with
  | JNull | JArr _ | JObj _ => true
  | _ => false
  end.

Definition isNull (payload : Json) : bool :=
  match payload with
  | JNull => true
  | _ => false
  end.

(** ['message' in payload] and [payload.message]. *)
Definition messageField (payload : Json) : option Json :=
  match payload with
  | JObj fields => getField "message" fields
  | _ => None
  end.

(** [(typeof payload === 'string' && payload) ||
     (typeof payload === 'object' && payload !== null && 'message' in payload
        ? String(payload.message) : generic)] *)
Definition errorMessage (payload : Json) : string :=
  let otherwise :=
    match typeofObject payload && negb (isNull payload), messageField payload with
    | true, Some m => toString m
    | _, _ => genericFailure
    end in
  match payload with
  | JStr s => if truthy s then s else otherwise
  | _ => otherwise
  end.

(** The part of [apiRequest] that follows [await fetch(url, requestInit)]. *)
Definition settle {T : Type} (reply : Reply T) : Result T :=
  match reply with
  | Rejected => Threw OtherError
  | Ok2xx _ data => Returned data
  | NotOk st contentType body =>
      let payload := readPayload contentType body in
      Threw (ApiError (errorMessage payload) st payload)
  end.

(** [error instanceof ApiError ? error.message : fallback], the shape of
    every [catch] block in the panels. *)
Definition errMessage (error : Thrown) (fallback : string) : string :=
  match error with
  | ApiError message _ _ => message
  | OtherError => fallback
  end.

(** What the outside world can observe of a handler: the requests it sends,
    in order, and its calls of the [onStatusUpdated] callback. *)
Inductive Event : Type :=
| Fetch (request : Request)
| StatusUpdated.

Definition isStatusUpdated (e : Event) : bool :=
  match e with
  | StatusUpdated => true
  | Fetch _ => false
  end.

Definition isPatch (e : Event) : bool :=
  match e with
  | Fetch {| endpoint := PatchStatus _ _ |} => true
  | _ => false
  end.

(** [!token], and [role !== 'PHARMACIST'], [role !== 'DOCTOR']. *)
Definition noToken (token : option string) : bool :=
  match token with
  | Some t => negb (truthy t)
  | None => true
  end.

Definition roleIs (expected : Role) (role : option Role) : bool :=
  match role with
  | Some r => Role_eqb r expected
  | None => false
  end.

(** ** Component state *)

(** The [useState] cells of [PrescriptionsPanel]. *)
Module PanelState.

Record t : Type := {
  prescriptions : list PrescriptionSummary;
  selectedId : option Z;
  selectedDetail : option PrescriptionDetail;
  loading : bool;
  message : option string
}.

Definition initial : t :=
  {| prescriptions := []; selectedId := None; selectedDetail := None;
     loading := false; message := None |}.

Definition setPrescriptions (v : list PrescriptionSummary) (s : t) : t :=
  {| prescriptions := v; selectedId := selectedId s;
     selectedDetail := selectedDetail s; loading := loading s;
     message := message s |}.

Definition setSelectedId (v : option Z) (s : t) : t :=
  {| prescriptions := prescriptions s; selectedId := v;
     selectedDetail := selectedDetail s; loading := loading s;
     message := message s |}.

Definition setSelectedDetail (v : option PrescriptionDetail) (s : t) : t :=
  {| prescriptions := prescriptions s; selectedId := selectedId s;
     selectedDetail := v; loading := loading s; message := message s |}.

Definition setLoading (v : bool) (s : t) : t :=
  {| prescriptions := prescriptions s; selectedId := selectedId s;
     selectedDetail := selectedDetail s; loading := v; message := message s |}.

Definition setMessage (v : option string) (s : t) : t :=
  {| prescriptions := prescriptions s; selectedId := selectedId s;
     selectedDetail := selectedDetail s; loading := loading s; message := v |}.

End PanelState.

(** The [useState] cells of [PharmacySearchPanel]. *)
Module SearchState.

Record t : Type := {
  keyword : string;
  results : list PharmacySummary;
  selectedPharmacyId : option Z;
  prescriptionId : string;
  message : option string;
  loading : bool
}.

Definition initial : t :=
  {| keyword := EmptyString; results := []; selectedPharmacyId := None;
     prescriptionId := EmptyString; message := None; loading := false |}.

Definition setResults (v : list PharmacySummary) (s : t) : t :=
  {| keyword := keyword s; results := v;
     selectedPharmacyId := selectedPharmacyId s;
     prescriptionId := prescriptionId s; message := message s;
     loading := loading s |}.

Definition setSelectedPharmacyId (v : option Z) (s : t) : t :=
  {| keyword := keyword s; results := results s; selectedPharmacyId := v;
     prescriptionId := prescriptionId s; message := message s;
     loading := loading s |}.

Definition setPrescriptionId (v : string) (s : t) : t :=
  {| keyword := keyword s; results := results s;
     selectedPharmacyId := selectedPharmacyId s; prescriptionId := v;
     message := message s; loading := loading s |}.

Definition setMessage (v : option string) (s : t) : t :=
  {| keyword := keyword s; results := results s;
     selectedPharmacyId := selectedPharmacyId s;
     prescriptionId := prescriptionId s; message := v; loading := loading s |}.

Definition setLoading (v : bool) (s : t) : t :=
  {| keyword := keyword s; results := results s;
     selectedPharmacyId := selectedPharmacyId s;
     prescriptionId := prescriptionId s; message := message s; loading := v |}.

End SearchState.

(** ** Running handlers against a remote service *)

Module Runtime.
Section Runtime.

Context {World : Type}.

(** The remote service: it receives a request in some state and settles
    it, moving to a new state. *)
Definition Service : Type :=
  World -> forall r : Request, World * Reply (ReplyType (endpoint r)).

(** Everything a handler can read or change: the service, the record of
    observable events, the state cells of the two panels and the
    [pendingReceivedCount] cell of [App]. *)
Record Sys : Type := {
  world : World;
  trace : list Event;
  panel : PanelState.t;
  search : SearchState.t;
  pendingReceivedCount : option nat
}.

Definition M (A : Type) : Type := Sys -> A * Sys.

Definition ret {A : Type} (a : A) : M A := fun s => (a, s).

Definition bind {A B : Type} (m : M A) (k : A -> M B) : M B :=
  fun s => let (a, s') := m s in k a s'.

Definition exec {A : Type} (m : M A) (s : Sys) : Sys := snd (m s).

Definition updatePanel (f : PanelState.t -> PanelState.t) : M unit :=
  fun s => (tt, {| world := world s; trace := trace s; panel := f (panel s);
                   search := search s;
                   pendingReceivedCount := pendingReceivedCount s |}).

Definition updateSearch (f : SearchState.t -> SearchState.t) : M unit :=
  fun s => (tt, {| world := world s; trace := trace s; panel := panel s;
                   search := f (search s);
                   pendingReceivedCount := pendingReceivedCount s |}).

Definition setPendingReceivedCount (v : option nat) : M unit :=
  fun s => (tt, {| world := world s; trace := trace s; panel := panel s;
                   search := search s; pendingReceivedCount := v |}).

Definition emit (e : Event) : M unit :=
  fun s => (tt, {| world := world s; trace := trace s ++ [e];
                   panel := panel s; search := search s;
                   pendingReceivedCount := pendingReceivedCount s |}).

(** [await fetch(url, requestInit)]: the request is recorded and the
    service settles it. *)
Definition fetch (service : Service) (r : Request)
  : M (Reply (ReplyType (endpoint r))) :=
  fun s =>
    let (w, reply) := service (world s) r in
    (reply, {| world := w; trace := trace s ++ [Fetch r]; panel := panel s;
               search := search s;
               pendingReceivedCount := pendingReceivedCount s |}).

(** [apiRequest<T>(path, { method, json, token })]: one [fetch], whose
    outcome is returned or thrown. *)
Definition apiRequest (service : Service) (q : Endpoint) (token : option string)
  : M (Result (ReplyType q)) :=
  bind (fetch service {| endpoint := q; bearer := token |})
       (fun reply => ret (settle reply)).

End Runtime.
Arguments Sys : clear implicits.
Arguments Service : clear implicits.
Arguments M : clear implicits.
End Runtime.
Import Runtime.

Declare Scope handler_scope.
Delimit Scope handler_scope with handler.
Notation "x <- m ;; k" := (bind m (fun x => k))
  (at level 61, m at next level, right associativity) : handler_scope.
Notation "m ;; k" := (bind m (fun _ => k))
  (at level 61, right associativity) : handler_scope.

(** ** [PrescriptionsPanel]: list, detail and advance *)

Module PrescriptionsPanel.

Definition pharmacistStatusSteps : list PrescriptionStatus :=
  [RECEIVED; DISPENSING; COMPLETED].

(** [steps.indexOf(x)], counting from [from]; [-1] when absent. *)
Fixpoint indexOfFrom (from : Z) (x : PrescriptionStatus)
  (steps : list PrescriptionStatus) : Z :=
  match steps with
  | [] => -1
  | y :: rest =>
      if PrescriptionStatus_eqb y x then from else indexOfFrom (from + 1) x rest
  end.

Definition indexOf (x : PrescriptionStatus) (steps : list PrescriptionStatus) : Z :=
  indexOfFrom 0 x steps.

(** [getNextStatus], lines 14-18. *)
Definition getNextStatus (current : PrescriptionStatus) : option PrescriptionStatus :=
  let currentIndex := indexOf current pharmacistStatusSteps in
  if currentIndex =? -1 then None
  else nth_error pharmacistStatusSteps (Z.to_nat (currentIndex + 1)).

Definition listFailed : string := "처방전을 불러오지 못했습니다.".
Definition detailFailed : string := "처방전 상세를 불러오지 못했습니다.".
Definition noFurtherChange : string := "완료된 처방전은 더 이상 변경할 수 없습니다.".
Definition statusUpdated : string := "상태가 업데이트되었습니다.".
Definition updateFailed : string := "상태 업데이트에 실패했습니다.".

Section Component.

Context {World : Type} (service : Service World).

(** The props of the component and the state cells as the render that
    created the handlers saw them. *)
Variable token : option string.
Variable role : option Role.
Variable onStatusUpdated : option (M World unit).
Variable rendered : PanelState.t.

Local Open Scope handler_scope.

Definition setPrescriptions v := updatePanel (World := World) (PanelState.setPrescriptions v).
Definition setSelectedId v := updatePanel (World := World) (PanelState.setSelectedId v).
Definition setSelectedDetail v := updatePanel (World := World) (PanelState.setSelectedDetail v).
Definition setLoading v := updatePanel (World := World) (PanelState.setLoading v).
Definition setMessage v := updatePanel (World := World) (PanelState.setMessage v).

(** [const disabled = !token;] *)
Definition disabled : bool := noToken token.

(** [selectPrescription], lines 61-76: the id is selected first; the detail
    is stored when the fetch returns, the message when it throws. *)
Definition selectPrescription (id : Z) : M World unit :=
  setSelectedId (Some id) ;;
  if disabled then ret tt
  else
    outcome <- apiRequest service (GetDetail id) token ;;
    match outcome with
    | Returned detail => setSelectedDetail (Some detail)
    | Threw error => setMessage (Some (errMessage error detailFailed))
    end.

(** [loadPrescriptions], lines 30-59; [selectedId] is the one this render
    captured.  The last line is the [finally] block. *)
Definition loadPrescriptions : M World unit :=
  if disabled then ret tt
  else
    setLoading true ;;
    setMessage None ;;
    outcome <- apiRequest service ListPrescriptions token ;;
    match outcome with
    | Returned data =>
        setPrescriptions data ;;
        match data with
        | [] =>
            setSelectedDetail None ;;
            setSelectedId None
        | first :: _ =>
            match PanelState.selectedId rendered with
            | None => selectPrescription (prescriptionId first)
            | Some selected =>
                let exists_ :=
                  existsb (fun item => prescriptionId item =? selected) data in
                if negb exists_ then selectPrescription (prescriptionId first)
                else ret tt
            end
        end
    | Threw error => setMessage (Some (errMessage error listFailed))
    end ;;
    setLoading false.

(** [handleAdvanceStatus], lines 78-106; [selectedDetail] is the one this
    render captured, [onStatusUpdated?.()] calls the callback when the
    component was given one. *)
Definition handleAdvanceStatus : M World unit :=
  match PanelState.selectedDetail rendered with
  | None => ret tt
  | Some selectedDetail =>
      if disabled || negb (roleIs PHARMACIST role) then ret tt
      else
        match getNextStatus (status selectedDetail) with
        | None => setMessage (Some noFurtherChange)
        | Some nextStatus =>
            setLoading true ;;
            setMessage None ;;
            outcome <- apiRequest service
                         (PatchStatus (prescriptionId selectedDetail) nextStatus)
                         token ;;
            match outcome with
            | Returned _ =>
                selectPrescription (prescriptionId selectedDetail) ;;
                loadPrescriptions ;;
                setMessage (Some statusUpdated) ;;
                match onStatusUpdated with
                | Some callback => emit StatusUpdated ;; callback
                | None => ret tt
                end
            | Threw error => setMessage (Some (errMessage error updateFailed))
            end ;;
            setLoading false
        end
  end.

End Component.
End PrescriptionsPanel.

(** ** [PharmacySearchPanel]: pharmacy search and dispatch *)

Module PharmacySearchPanel.

Definition searchFailed : string := "약국 검색에 실패했습니다.".
Definition dispatched : string := "처방전을 약국으로 전송했습니다.".
Definition dispatchFailed : string := "처방전 전송에 실패했습니다.".

(** [`${n}개의 약국을 찾았습니다.`] *)
Definition found (n : nat) : string :=
  numberToString (Z.of_nat n) ++ "개의 약국을 찾았습니다.".

(** [!selectedPharmacyId]: [null] and [0] are falsy. *)
Definition noPharmacy (selectedPharmacyId : option Z) : bool :=
  match selectedPharmacyId with
  | Some n => n =? 0
  | None => true
  end.

Section Component.

Context {World : Type} (service : Service World).

Variable token : option string.
Variable role : option Role.
Variable rendered : SearchState.t.

Local Open Scope handler_scope.

Definition setResults v := updateSearch (World := World) (SearchState.setResults v).
Definition setSelectedPharmacyId v :=
  updateSearch (World := World) (SearchState.setSelectedPharmacyId v).
Definition setPrescriptionId v :=
  updateSearch (World := World) (SearchState.setPrescriptionId v).
Definition setMessage v := updateSearch (World := World) (SearchState.setMessage v).
Definition setLoading v := updateSearch (World := World) (SearchState.setLoading v).

(** [const disabled = role !== 'DOCTOR' || !token;] *)
Definition disabled : bool := negb (roleIs DOCTOR role) || noToken token.

(** [handleSearch], lines 23-45. *)
Definition handleSearch : M World unit :=
  let keyword := SearchState.keyword rendered in
  if negb (truthy keyword) || disabled then ret tt
  else
    setLoading true ;;
    setMessage None ;;
    outcome <- apiRequest service (SearchPharmacies keyword) token ;;
    match outcome with
    | Returned data =>
        setResults data ;;
        match data with
        | first :: _ => setSelectedPharmacyId (Some (id first))
        | [] => ret tt
        end ;;
        setMessage (Some (found (List.length data)))
    | Threw error => setMessage (Some (errMessage error searchFailed))
    end ;;
    setLoading false.

(** [handleDispatch], lines 47-69; the guard is
    [disabled || !selectedPharmacyId || !prescriptionId], where a selected
    id is falsy when it is [null] or [0]. *)
Definition handleDispatch : M World unit :=
  let prescriptionId := SearchState.prescriptionId rendered in
  match SearchState.selectedPharmacyId rendered with
  | None => ret tt
  | Some selectedPharmacyId =>
      if disabled || (selectedPharmacyId =? 0) || negb (truthy prescriptionId)
      then ret tt
      else
        setLoading true ;;
        setMessage None ;;
        outcome <- apiRequest service
                     (Dispatch prescriptionId selectedPharmacyId) token ;;
        match outcome with
        | Returned _ =>
            setMessage (Some dispatched) ;;
            setPrescriptionId EmptyString
        | Threw error => setMessage (Some (errMessage error dispatchFailed))
        end ;;
        setLoading false
  end.

End Component.
End PharmacySearchPanel.

(** ** [App]: the pending-count aggregator *)

Module App.

(** The two fields of [authState] the aggregator reads. *)
Record AuthState : Type := {
  token : option string;
  role : option Role
}.

Definition isReceived (item : PrescriptionSummary) : bool :=
  PrescriptionStatus_eqb (status item) RECEIVED.

Section Component.

Context {World : Type} (service : Service World).
Variable authState : AuthState.

Local Open Scope handler_scope.

(** [refreshPendingReceivedCount], lines 43-57. *)
Definition refreshPendingReceivedCount : M World unit :=
  if negb (roleIs PHARMACIST (role authState)) || noToken (token authState)
  then setPendingReceivedCount None
  else
    outcome <- apiRequest service ListPrescriptions (token authState) ;;
    match outcome with
    | Returned data =>
        let pending := List.length (filter isReceived data) in
        setPendingReceivedCount (Some pending)
    | Threw _ => setPendingReceivedCount None
    end.

(** [<PrescriptionsPanel token={authState.token} role={authState.role}
      onStatusUpdated={refreshPendingReceivedCount} />] *)
Definition advanceFromPanel (rendered : PanelState.t) : M World unit :=
  PrescriptionsPanel.handleAdvanceStatus service
    (token authState) (role authState)
    (Some refreshPendingReceivedCount) rendered.

End Component.
End App.

(** ** Observations on runs *)

Module Observe.

(** An event that is not a status-update request. *)
Definition quiet (e : Event) : bool := negb (isPatch e).

(** A request that only reads: a GET. *)
Definition isRead (e : Event) : bool :=
  match e with
  | Fetch r => match requestMethod (endpoint r) with GET => true | _ => false end
  | StatusUpdated => false
  end.

(** A computation only adds events satisfying [ok] to the record. *)
Definition appends {World A : Type} (ok : Event -> bool) (m : M World A) : Prop :=
  forall s, exists evs,
    trace (snd (m s)) = (trace s ++ evs)%list /\ forallb ok evs = true.

(** The number of [onStatusUpdated] calls on record. *)
Definition notifications (evs : list Event) : nat :=
  List.length (filter isStatusUpdated evs).

(** A message is set for the user of [PrescriptionsPanel], respectively of
    [PharmacySearchPanel] (what [{message ? <p>...</p> : null}] shows). *)
Definition panelMessageShown {World : Type} (s : Sys World) : Prop :=
  exists m, PanelState.message (panel s) = Some m.

Definition searchMessageShown {World : Type} (s : Sys World) : Prop :=
  exists m, SearchState.message (search s) = Some m.

(** The status-updated callback was called between two states. *)
Definition signalFired {World : Type} (before after : Sys World) : Prop :=
  (notifications (trace before) < notifications (trace after))%nat.

(** The payload is a string that is not empty ([typeof payload === 'string'
    && payload] is truthy). *)
Definition nonEmptyText (payload : Json) : bool :=
  match payload with
  | JStr s => truthy s
  | _ => false
  end.


(** The failure reason as the specification words it: the plain-text body
    when the body is text, otherwise the [message] field when the body is
    JSON containing one, otherwise (neither of them present, an empty body
    included) the generic failure string. *)
Definition reasonAsSpecified (contentType : option string) (body : Body) : string :=
  let isJson := match contentType with
                | Some ct => includes ct "application/json"
                | None => false
                end in
  if isJson then
    match bodyJson body with
    | Some (JObj fields) =>
        match getField "message" fields with
        | Some m => toString m
        | None => genericFailure
        end
    | _ => genericFailure
    end
  else
    match bodyText body with
    | Some text => if truthy text then text else genericFailure
    | None => genericFailure
    end.

End Observe.
Import Observe.

(** ** Concrete inputs *)

(** Stand-ins for the remote service and sample records, used to run the
    handlers on concrete inputs. *)
Module Sample.

Definition kim : PatientRef := {| patientId := 3; patientName := "Kim" |}.

Definition lee : DoctorSummary :=
  {| doctorId := 4; doctorName := "Lee"; doctorHospitalName := None;
     departmentName := None |}.

Definition pharmacy7 : PharmacySummary :=
  {| id := 7; name := "Center Pharmacy"; address := "1 Main St";
     phone := None; hospitalId := None; hospitalName := None |}.

Definition pharmacy9 : PharmacySummary :=
  {| id := 9; name := "Corner Pharmacy"; address := "2 Side St";
     phone := None; hospitalId := None; hospitalName := None |}.

Definition summaryOf (n : Z) (st : PrescriptionStatus) : PrescriptionSummary :=
  {| prescriptionId := n; medicalRecordId := 100 + n; issueDate := "2024-05-01";
     status := st; diagnosis := "flu"; patient := kim; doctor := lee |}.

Definition detailOf (n : Z) (st : PrescriptionStatus) : PrescriptionDetail :=
  {| summary := summaryOf n st;
     pharmacy := match st with CREATED => None | _ => Some pharmacy7 end;
     medicines := []; notes := None |}.

Definition notFound : Body :=
  {| bodyText := None;
     bodyJson := Some (JObj [("message", JStr "not found")]) |}.

(** A service holding a table of prescriptions: it lists them, returns one
    by id, and stores the status it is asked to set. *)
Definition withStatus (st : PrescriptionStatus) (d : PrescriptionDetail)
  : PrescriptionDetail :=
  detailOf (prescriptionId d) st.

Definition directory : list PharmacySummary := [pharmacy7; pharmacy9].

Definition sentTo (target : Z) (d : PrescriptionDetail) : PrescriptionDetail :=
  {| summary := summaryOf (prescriptionId d) RECEIVED;
     pharmacy := find (fun p => id p =? target) directory;
     medicines := medicines d; notes := notes d |}.

Definition clinic : Service (list PrescriptionDetail) :=
  fun db r =>
    match endpoint r as q return list PrescriptionDetail * Reply (ReplyType q) with
    | ListPrescriptions => (db, Ok2xx 200 (map summary db))
    | GetDetail n =>
        match find (fun d : PrescriptionDetail => prescriptionId d =? n) db with
        | Some d => (db, Ok2xx 200 d)
        | None => (db, NotOk 404 (Some "application/json") notFound)
        end
    | PatchStatus n next =>
        (map (fun d : PrescriptionDetail =>
                if prescriptionId d =? n then withStatus next d else d) db,
         Ok2xx 200 tt)
    | Dispatch p target =>
        (map (fun d : PrescriptionDetail =>
                if String.eqb (numberToString (prescriptionId d)) p
                then sentTo target d else d) db,
         Ok2xx 200 tt)
    | SearchPharmacies kw =>
        (db, Ok2xx 200 (filter (fun p => includes (name p) kw) directory))
    end.

(** A service that answers every request with status 500 and an empty
    plain-text body. *)
Definition emptyBody : Body := {| bodyText := Some EmptyString; bodyJson := None |}.

Definition failing : Service unit :=
  fun w _ => (w, NotOk 500 (Some "text/plain") emptyBody).

Definition start {World : Type} (w : World) : Sys World :=
  {| world := w; trace := []; panel := PanelState.initial;
     search := SearchState.initial; pendingReceivedCount := None |}.

(** The panel as rendered with prescription [n] selected and shown. *)
Definition showing (n : Z) (st : PrescriptionStatus) : PanelState.t :=
  {| PanelState.prescriptions := [summaryOf n st];
     PanelState.selectedId := Some n;
     PanelState.selectedDetail := Some (detailOf n st);
     PanelState.loading := false;
     PanelState.message := None |}.

(** The search panel as rendered with a pharmacy chosen and a prescription
    id typed in. *)
Definition choosing (kw : string) (shown : list PharmacySummary)
  (chosen : option Z) (typed : string) : SearchState.t :=
  {| SearchState.keyword := kw; SearchState.results := shown;
     SearchState.selectedPharmacyId := chosen;
     SearchState.prescriptionId := typed;
     SearchState.message := None; SearchState.loading := false |}.

Definition withPanel {World : Type} (p : PanelState.t) (s : Sys World) : Sys World :=
  {| world := world s; trace := trace s; panel := p; search := search s;
     pendingReceivedCount := pendingReceivedCount s |}.

Definition withSearch {World : Type} (p : SearchState.t) (s : Sys World) : Sys World :=
  {| world := world s; trace := trace s; panel := panel s; search := p;
     pendingReceivedCount := pendingReceivedCount s |}.

Definition pharmacist : App.AuthState :=
  {| App.token := Some "pharmacist-token"; App.role := Some PHARMACIST |}.

End Sample.

(** ** What the panels render *)

(** The parts of the markup of [PrescriptionsPanel] that decide what the
    user can trigger, and the effect that loads the list. *)
Module PrescriptionsView.

(** [statusText], lines 115-128. *)
Definition statusText (s : PrescriptionStatus) : string :=
  match s with
  | CREATED => "전송 대기"
  | RECEIVED => "접수"
  | DISPENSING => "조제 중"
  | COMPLETED => "완료"
  end.

(** [statusBadgeClass], lines 132-145. *)
Definition statusBadgeClass (s : PrescriptionStatus) : string :=
  match s with
  | CREATED => "bg-violet-100 text-violet-700"
  | RECEIVED => "bg-blue-100 text-blue-700"
  | DISPENSING => "bg-amber-100 text-amber-700"
  | COMPLETED => "bg-emerald-100 text-emerald-700"
  end.

(** A rendered button: its [disabled] attribute and its text. *)
Record Button : Type := {
  buttonDisabled : bool;
  buttonLabel : string
}.

(** The advance button, lines 203-214: rendered inside the detail, for a
    pharmacist only. *)
Definition advanceButton (token : option string) (role : option Role)
  (rendered : PanelState.t) : option Button :=
  match PanelState.selectedDetail rendered with
  | None => None
  | Some selectedDetail =>
      if roleIs PHARMACIST role then
        let next := PrescriptionsPanel.getNextStatus (status selectedDetail) in
        Some {| buttonDisabled :=
                  PrescriptionsPanel.disabled token
                  || PanelState.loading rendered
                  || match next with Some _ => false | None => true end;
                buttonLabel :=
                  match next with
                  | Some n => "→ " ++ statusName n
                  | None => "완료"
                  end |}
      else None
  end.

(** The refresh button, line 157. *)
Definition refreshDisabled (token : option string) (rendered : PanelState.t) : bool :=
  PrescriptionsPanel.disabled token || PanelState.loading rendered.

(** The list entry of a prescription is highlighted, lines 168-172. *)
Definition highlighted (rendered : PanelState.t) (item : PrescriptionSummary) : bool :=
  match PanelState.selectedId rendered with
  | Some selected => selected =? prescriptionId item
  | None => false
  end.

Section Effects.

Context {World : Type} (service : Service World).

(** [useEffect(() => { if (token) { void loadPrescriptions(); } }, [token, role])],
    lines 108-113. *)
Definition onTokenChange (token : option string) (rendered : PanelState.t)
  : M World unit :=
  if negb (noToken token)
  then PrescriptionsPanel.loadPrescriptions service token rendered
  else ret tt.

End Effects.
End PrescriptionsView.

(** The [disabled] attributes of the forms of [PharmacySearchPanel]. *)
Module PharmacySearchView.

(** The search button, line 91. *)
Definition searchDisabled (token : option string) (role : option Role)
  (rendered : SearchState.t) : bool :=
  PharmacySearchPanel.disabled token role || SearchState.loading rendered.

(** The dispatch button, line 134. *)
Definition dispatchDisabled (token : option string) (role : option Role)
  (rendered : SearchState.t) : bool :=
  PharmacySearchPanel.disabled token role
  || SearchState.loading rendered
  || PharmacySearchPanel.noPharmacy (SearchState.selectedPharmacyId rendered)
  || negb (truthy (SearchState.prescriptionId rendered)).

End PharmacySearchView.

(** ** The request [apiRequest] composes ([lib/api.ts], lines 26-43) *)

Module Http.

(** A [Record<string, string>]: its own keys in insertion order, each
    once. *)
Definition Headers : Type := list (string * string).

(** [obj[key]]. *)
Fixpoint header (key : string) (obj : Headers) : option string :=
  match obj with
  | [] => None
  | (k, v) :: rest => if String.eqb k key then Some v else header key rest
  end.

(** [obj[key] = value]: an existing key keeps its place. *)
Fixpoint assign (key value : string) (obj : Headers) : Headers :=
  match obj with
  | [] => [(key, value)]
  | (k, v) :: rest =>
      if String.eqb k key then (key, value) :: rest
      else (k, v) :: assign key value rest
  end.

(** [{ ...target, ...source }]. *)
Definition spread (target source : Headers) : Headers :=
  fold_left (fun obj kv => assign (fst kv) (snd kv) obj) source target.

(** [composedHeaders], lines 27-34. *)
Definition composedHeaders (headers : option Headers) (skipAuth : bool)
  (token : option string) : Headers :=
  let composed :=
    spread [("Content-Type", "application/json")]
      (match headers with Some given => given | None => [] end) in
  match token with
  | Some t =>
      if negb skipAuth && truthy t
      then assign "Authorization" ("Bearer " ++ t) composed
      else composed
  | None => composed
  end.

(** [path.startsWith('http') ? path : `${BASE_URL}${path}`], line 26. *)
Definition url (baseUrl path : string) : string :=
  if String.prefix "http" path then path else baseUrl ++ path.

(** The keys of an object. *)
Definition keys (obj : Headers) : list string := map fst obj.

End Http.

(** ** Navigation ([App.tsx], [DoctorWorkspace.tsx]) *)

Module Shell.

Inductive Page : Type :=
| Home
| Auth
| DoctorWorkspacePage
| PharmacistDashboard
| Prescriptions.

(** [authState] (the two fields that decide navigation) and [page]. *)
Record State : Type := {
  authState : App.AuthState;
  page : Page
}.

Definition initial : State :=
  {| authState := {| App.token := None; App.role := None |}; page := Home |}.

Definition setPage (p : Page) (st : State) : State :=
  {| authState := authState st; page := p |}.

Definition hasToken (st : State) : bool := negb (noToken (App.token (authState st))).

(** [goToDashboard], lines 68-76. *)
Definition goToDashboard (st : State) : State :=
  match App.role (authState st) with
  | Some DOCTOR => setPage DoctorWorkspacePage st
  | Some PHARMACIST => setPage PharmacistDashboard st
  | None => st
  end.

(** [handleLogout], lines 78-87. *)
Definition handleLogout (st : State) : State :=
  {| authState := {| App.token := None; App.role := None |}; page := Home |}.

(** The [onLogin] callback given to [AuthPanel], lines 191-200. *)
Definition onLogin (accessToken : string) (role : Role) (st : State) : State :=
  {| authState := {| App.token := Some accessToken; App.role := Some role |};
     page := Home |}.

(** The button of the home page, lines 103-111. *)
Definition homeCallToAction (st : State) : State :=
  setPage (if hasToken st
           then if roleIs DOCTOR (App.role (authState st))
                then DoctorWorkspacePage else PharmacistDashboard
           else Auth) st.

(** What the user can do: every [onClick] and callback of [App] that
    changes [page] or [authState]. *)
Inductive Action : Type :=
| GoHome                        (* brand button, back buttons, [onNavigateHome] *)
| GoAuth                        (* the login button of the header *)
| Dashboard                     (* [goToDashboard] *)
| CallToAction                  (* the button of the home page *)
| Logout                        (* [handleLogout] *)
| Login (accessToken : string) (role : Role)
| BackToDoctor                  (* rendered for a doctor, lines 256-263 *)
| BackToPharmacist.             (* rendered for a pharmacist, lines 264-271 *)

Definition step (st : State) (a : Action) : State :=
  match a with
  | GoHome => setPage Home st
  | GoAuth => setPage Auth st
  | Dashboard => goToDashboard st
  | CallToAction => homeCallToAction st
  | Logout => handleLogout st
  | Login accessToken role => onLogin accessToken role st
  | BackToDoctor =>
      if roleIs DOCTOR (App.role (authState st))
      then setPage DoctorWorkspacePage st else st
  | BackToPharmacist =>
      if roleIs PHARMACIST (App.role (authState st))
      then setPage PharmacistDashboard st else st
  end.

Definition run (actions : list Action) : State := fold_left step actions initial.

(** [DoctorTab] and the panel [renderContent] picks for it,
    [DoctorWorkspace.tsx], lines 10 and 63-78. *)
Inductive DoctorTab : Type := create | patient | all | pharmacy | prescriptions.

Inductive Panel : Type :=
| MedicalRecordsPanel
| PatientRecordsPanel
| AllRecordsPanel
| PharmacySearchPanel
| PrescriptionsPanel.

Definition renderContent (activeTab : DoctorTab) : Panel :=
  match activeTab with
  | create => MedicalRecordsPanel
  | patient => PatientRecordsPanel
  | all => AllRecordsPanel
  | pharmacy => PharmacySearchPanel
  | prescriptions => PrescriptionsPanel
  end.

(** What is on screen.  A panel is given [token] and [role]; [notify] tells
    whether it is also given [onStatusUpdated]. *)
Inductive View : Type :=
| HomeView
| AuthView
| DoctorNotice
| DoctorContent (content : Panel) (token : option string) (role : option Role)
| PharmacistNotice
| PrescriptionsOnly (token : option string) (role : option Role) (notify : bool).

(** [DoctorWorkspace], lines 61 and 79-87: the notice, or the tabs with
    their content. *)
Definition renderDoctorWorkspace (token : option string) (role : option Role)
  (activeTab : DoctorTab) : View :=
  if negb (roleIs DOCTOR role) then DoctorNotice
  else DoctorContent (renderContent activeTab) token role.

(** [renderPharmacistDashboard], lines 217-251. *)
Definition renderPharmacistDashboard (st : State) : View :=
  if negb (roleIs PHARMACIST (App.role (authState st))) then PharmacistNotice
  else PrescriptionsOnly (App.token (authState st)) (App.role (authState st)) true.

(** [renderPage], lines 287-301. *)
Definition renderPage (st : State) (activeTab : DoctorTab) : View :=
  match page st with
  | Auth => AuthView
  | DoctorWorkspacePage =>
      if hasToken st
      then renderDoctorWorkspace (App.token (authState st))
             (App.role (authState st)) activeTab
      else AuthView
  | PharmacistDashboard =>
      if hasToken st then renderPharmacistDashboard st else AuthView
  | Prescriptions =>
      if hasToken st
      then PrescriptionsOnly (App.token (authState st)) (App.role (authState st)) true
      else AuthView
  | Home => HomeView
  end.

End Shell.

(** ** Further observations and inputs *)

Module Measure.

(** The place of a status in [CREATED, RECEIVED, DISPENSING, COMPLETED]. *)
Definition rank (s : PrescriptionStatus) : nat :=
  match s with
  | CREATED => 0
  | RECEIVED => 1
  | DISPENSING => 2
  | COMPLETED => 3
  end.

(** A request carries a token that is not empty. *)
Definition authenticated (e : Event) : bool :=
  match e with
  | Fetch r => negb (noToken (bearer r))
  | StatusUpdated => true
  end.

(** A character that ends or splits a query parameter. *)
Definition delimiter (c : ascii) : bool :=
  existsb (Ascii.eqb c) ["&"; "="; "?"; "#"; "/"; " "; "+"]%char.

Fixpoint allChars (ok : ascii -> bool) (s : string) : bool :=
  match s with
  | EmptyString => true
  | String c rest => ok c && allChars ok rest
  end.

(** Two panel states have the same list, selected id and detail. *)
Definition sameListAndSelection (before after : PanelState.t) : Prop :=
  PanelState.prescriptions after = PanelState.prescriptions before
  /\ PanelState.selectedId after = PanelState.selectedId before
  /\ PanelState.selectedDetail after = PanelState.selectedDetail before.

(** Two search panel states have the same results, selection and typed
    prescription id. *)
Definition sameForm (before after : SearchState.t) : Prop :=
  SearchState.keyword after = SearchState.keyword before
  /\ SearchState.results after = SearchState.results before
  /\ SearchState.selectedPharmacyId after = SearchState.selectedPharmacyId before
  /\ SearchState.prescriptionId after = SearchState.prescriptionId before.

(** A computation leaves a part of the system as it found it. *)
Definition keeps {World A X : Type} (part : Sys World -> X) (m : M World A) : Prop :=
  forall s, part (snd (m s)) = part s.

End Measure.
Import Measure.

Module Cases.

(** A service whose list is served but whose other calls fail with a JSON
    error body. *)
Definition readOnly : Service (list PrescriptionDetail) :=
  fun db r =>
    match endpoint r as q return list PrescriptionDetail * Reply (ReplyType q) with
    | ListPrescriptions => (db, Ok2xx 200 (map summary db))
    | GetDetail _ => (db, NotOk 404 (Some "application/json") Sample.notFound)
    | PatchStatus _ _ => (db, NotOk 409 (Some "application/json") Sample.notFound)
    | Dispatch _ _ => (db, NotOk 409 (Some "application/json") Sample.notFound)
    | SearchPharmacies _ => (db, NotOk 500 None Sample.emptyBody)
    end.

(** A service that stores the status it is asked to set and lists its
    table, but whose detail call always fails. *)
Definition noDetail : Service (list PrescriptionDetail) :=
  fun db r =>
    match endpoint r as q return list PrescriptionDetail * Reply (ReplyType q) with
    | ListPrescriptions => (db, Ok2xx 200 (map summary db))
    | GetDetail _ => (db, NotOk 404 (Some "application/json") Sample.notFound)
    | PatchStatus n next =>
        (map (fun d : PrescriptionDetail =>
                if prescriptionId d =? n then Sample.withStatus next d else d) db,
         Ok2xx 200 tt)
    | Dispatch _ _ => (db, NotOk 409 (Some "application/json") Sample.notFound)
    | SearchPharmacies _ => (db, NotOk 500 None Sample.emptyBody)
    end.

(** A service that answers every request with status 500 and a JSON body
    that is a string. *)
Definition jsonString : Service unit :=
  fun w _ =>
    (w, NotOk 500 (Some "application/json")
          {| bodyText := None; bodyJson := Some (JStr "oops") |}).

End Cases.

(** * Properties *)

Local Open Scope list_scope.

Section Frame.

Context {World : Type}.
Variable ok : Event -> bool.

Lemma appends_ret {A : Type} (a : A) : appends (World := World) ok (ret a).
Proof.
  intros s. exists []. simpl. rewrite app_nil_r. auto.
Qed.

Lemma appends_bind {A B : Type} (m : M World A) (k : A -> M World B) :
  appends ok m -> (forall a, appends ok (k a)) -> appends ok (bind m k).
Proof.
  intros Hm Hk s. unfold bind.
  destruct (Hm s) as [e1 [T1 F1]].
  destruct (m s) as [a s1]. simpl in T1.
  destruct (Hk a s1) as [e2 [T2 F2]].
  exists (e1 ++ e2). rewrite T2, T1, app_assoc, forallb_app, F1, F2. auto.
Qed.

Lemma appends_updatePanel f : appends (World := World) ok (updatePanel f).
Proof.
  intros s. exists []. simpl. rewrite app_nil_r. auto.
Qed.

Lemma appends_updateSearch f : appends (World := World) ok (updateSearch f).
Proof.
  intros s. exists []. simpl. rewrite app_nil_r. auto.
Qed.

Lemma appends_setPendingReceivedCount v :
  appends (World := World) ok (setPendingReceivedCount v).
Proof.
  intros s. exists []. simpl. rewrite app_nil_r. auto.
Qed.

Lemma appends_emit e : ok e = true -> appends (World := World) ok (emit e).
Proof.
  intros He s. exists [e]. simpl. rewrite He. auto.
Qed.

Lemma appends_fetch (service : Service World) r :
  ok (Fetch r) = true -> appends ok (fetch service r).
Proof.
  intros He s. exists [Fetch r]. unfold fetch.
  destruct (service (world s) r) as [w reply]. simpl. rewrite He. auto.
Qed.

Lemma appends_apiRequest (service : Service World) q token :
  ok (Fetch {| endpoint := q; bearer := token |}) = true ->
  appends ok (apiRequest service q token).
Proof.
  intros He s. exists [Fetch {| endpoint := q; bearer := token |}].
  unfold apiRequest, bind, fetch, ret.
  destruct (service (world s) _) as [w reply]. simpl. rewrite He. auto.
Qed.

Lemma appends_weaken {A : Type} (ok' : Event -> bool) (m : M World A) :
  (forall e, ok e = true -> ok' e = true) -> appends ok m -> appends ok' m.
Proof.
  intros Hle Hm s. destruct (Hm s) as [evs [T F]]. exists evs.
  split; [ assumption | ].
  rewrite forallb_forall in *. auto.
Qed.


Lemma exec_bind {A B : Type} (m : M World A) (k : A -> M World B) s :
  exec (bind m k) s = exec (k (fst (m s))) (exec m s).
Proof. unfold exec, bind. destruct (m s). reflexivity. Qed.

Lemma exec_updatePanel {B : Type} f (k : unit -> M World B) s :
  exec (bind (updatePanel f) k) s
  = exec (k tt) {| world := world s; trace := trace s; panel := f (panel s);
                   search := search s;
                   pendingReceivedCount := pendingReceivedCount s |}.
Proof. reflexivity. Qed.

Lemma exec_updateSearch {B : Type} f (k : unit -> M World B) s :
  exec (bind (updateSearch f) k) s
  = exec (k tt) {| world := world s; trace := trace s; panel := panel s;
                   search := f (search s);
                   pendingReceivedCount := pendingReceivedCount s |}.
Proof. reflexivity. Qed.

Lemma exec_emit {B : Type} e (k : unit -> M World B) s :
  exec (bind (emit e) k) s
  = exec (k tt) {| world := world s; trace := trace s ++ [e];
                   panel := panel s; search := search s;
                   pendingReceivedCount := pendingReceivedCount s |}.
Proof. reflexivity. Qed.

Lemma exec_apiRequest {B : Type} (service : Service World) q token
  (k : Result (ReplyType q) -> M World B) s :
  exec (bind (apiRequest service q token) k) s
  = let (w, reply) := service (world s) {| endpoint := q; bearer := token |} in
    exec (k (settle reply))
      {| world := w;
         trace := trace s ++ [Fetch {| endpoint := q; bearer := token |}];
         panel := panel s; search := search s;
         pendingReceivedCount := pendingReceivedCount s |}.
Proof.
  unfold exec, apiRequest, bind, fetch, ret.
  destruct (service (world s) _) as [w reply]. reflexivity.
Qed.

End Frame.

Create HintDb frame.

#[local] Hint Resolve appends_ret appends_updatePanel appends_updateSearch
  appends_setPendingReceivedCount appends_emit appends_fetch
  appends_apiRequest : frame.

(** Decompose a handler along its binds and branches. *)
Ltac setters :=
  unfold PrescriptionsPanel.setPrescriptions, PrescriptionsPanel.setSelectedId,
    PrescriptionsPanel.setSelectedDetail, PrescriptionsPanel.setLoading,
    PrescriptionsPanel.setMessage, PharmacySearchPanel.setResults,
    PharmacySearchPanel.setSelectedPharmacyId,
    PharmacySearchPanel.setPrescriptionId, PharmacySearchPanel.setMessage,
    PharmacySearchPanel.setLoading.

Ltac frame :=
  setters;
  repeat first
    [ solve [ auto with frame ]
    | apply appends_bind; [ | intros ? ]
    | match goal with
      | |- appends _ (match ?x with _ => _ end) => destruct x
      | |- appends _ (if ?b then _ else _) => destruct b
      end ].

Section Properties.

Context {World : Type} (service : Service World).

Lemma selectPrescription_reads token n :
  appends isRead (PrescriptionsPanel.selectPrescription service token n).
Proof.
  unfold PrescriptionsPanel.selectPrescription. frame.
Qed.

#[local] Hint Resolve selectPrescription_reads : frame.

Lemma loadPrescriptions_reads token rendered :
  appends isRead (PrescriptionsPanel.loadPrescriptions service token rendered).
Proof.
  unfold PrescriptionsPanel.loadPrescriptions. frame.
Qed.

Lemma refreshPendingReceivedCount_reads authState :
  appends isRead (App.refreshPendingReceivedCount service authState).
Proof.
  unfold App.refreshPendingReceivedCount. frame.
Qed.

Lemma isRead_quiet e : isRead e = true -> quiet e = true.
Proof.
  destruct e as [ [ [ | | | | ] tok ] | ]; cbn; congruence.
Qed.

Lemma selectPrescription_quiet token n :
  appends quiet (PrescriptionsPanel.selectPrescription service token n).
Proof.
  eapply appends_weaken; [ apply isRead_quiet | apply selectPrescription_reads ].
Qed.

Lemma loadPrescriptions_quiet token rendered :
  appends quiet (PrescriptionsPanel.loadPrescriptions service token rendered).
Proof.
  eapply appends_weaken; [ apply isRead_quiet | apply loadPrescriptions_reads ].
Qed.

Lemma refreshPendingReceivedCount_quiet authState :
  appends quiet (App.refreshPendingReceivedCount service authState).
Proof.
  eapply appends_weaken;
    [ apply isRead_quiet | apply refreshPendingReceivedCount_reads ].
Qed.

#[local] Hint Resolve selectPrescription_quiet loadPrescriptions_quiet : frame.

(** Once a successor exists, an enabled pharmacist's advance sends the
    status update first and no other status update after it. *)
Lemma advance_single_patch token onStatusUpdated rendered d next sys :
  PanelState.selectedDetail rendered = Some d ->
  noToken token = false ->
  PrescriptionsPanel.getNextStatus (status d) = Some next ->
  (forall callback, onStatusUpdated = Some callback -> appends quiet callback) ->
  exists evs,
    trace (exec (PrescriptionsPanel.handleAdvanceStatus service token
                   (Some PHARMACIST) onStatusUpdated rendered) sys)
    = trace sys
      ++ Fetch {| endpoint := PatchStatus (prescriptionId d) next;
                  bearer := token |} :: evs
    /\ forallb quiet evs = true.
Proof.
  intros Hd Htok Hnext Hcb.
  unfold PrescriptionsPanel.handleAdvanceStatus, PrescriptionsPanel.disabled.
  rewrite Hd, Htok, Hnext. cbn [roleIs Role_eqb negb orb].
  unfold PrescriptionsPanel.setLoading at 1, PrescriptionsPanel.setMessage at 1.
  rewrite !exec_updatePanel, exec_apiRequest.
  destruct (service (world _) _) as [w reply].
  match goal with
  | |- context [exec ?m ?s] =>
      assert (F : appends quiet m); [ | destruct (F s) as [evs [T Q]] ]
  end.
  { destruct (settle reply); [ | frame ].
    destruct onStatusUpdated as [callback | ]; [ | frame ].
    pose proof (Hcb callback eq_refl). frame. }
  exists evs. unfold exec. rewrite T. cbn [trace]. rewrite <- app_assoc. auto.
Qed.

(** What one run of [selectPrescription] does, given the service's answer. *)
Lemma selectPrescription_run token n s :
  noToken token = false ->
  exec (PrescriptionsPanel.selectPrescription service token n) s
  = let request := {| endpoint := GetDetail n; bearer := token |} in
    let (w, reply) := service (world s) request in
    let selected := PanelState.setSelectedId (Some n) (panel s) in
    {| world := w;
       trace := trace s ++ [Fetch request];
       panel := match settle reply with
                | Returned detail =>
                    PanelState.setSelectedDetail (Some detail) selected
                | Threw error =>
                    PanelState.setMessage
                      (Some (errMessage error PrescriptionsPanel.detailFailed))
                      selected
                end;
       search := search s;
       pendingReceivedCount := pendingReceivedCount s |}.
Proof.
  intros Htok.
  unfold PrescriptionsPanel.selectPrescription, PrescriptionsPanel.disabled.
  rewrite Htok. setters. rewrite exec_updatePanel, exec_apiRequest.
  cbn [world trace panel search pendingReceivedCount].
  destruct (service (world s) _) as [w reply].
  destruct (settle reply); reflexivity.
Qed.

Lemma existsb_prescriptionId (selected : Z) (data : list PrescriptionSummary) :
  existsb (fun item => prescriptionId item =? selected) data = true
  <-> In selected (map prescriptionId data).
Proof.
  rewrite existsb_exists, in_map_iff.
  split; intros [item H]; exists item; rewrite Z.eqb_eq in *; tauto.
Qed.




(** C3, as the code has it. With any role other than PHARMACIST, advance
    returns at once: no request is sent and no state cell changes, the
    message included. *)
Theorem C3_non_pharmacist_advance_is_silent
  token role onStatusUpdated rendered sys :
  role <> Some PHARMACIST ->
  exec (PrescriptionsPanel.handleAdvanceStatus service token role
          onStatusUpdated rendered) sys
  = sys.
Proof.
  intros Hrole. unfold PrescriptionsPanel.handleAdvanceStatus.
  destruct (PanelState.selectedDetail rendered); [ | reflexivity ].
  destruct role as [ [ | ] | ]; try congruence;
    cbn [roleIs Role_eqb negb]; rewrite orb_true_r; reflexivity.
Qed.

(** C4, as the code has it. With no pharmacy selected or no prescription
    id entered, dispatch returns at once: no request is sent and no state
    cell changes, the message included. *)
Theorem C4_incomplete_dispatch_is_silent token role rendered sys :
  PharmacySearchPanel.noPharmacy (SearchState.selectedPharmacyId rendered) = true
  \/ SearchState.prescriptionId rendered = EmptyString ->
  exec (PharmacySearchPanel.handleDispatch service token role rendered) sys
  = sys.
Proof.
  intros Hgap. unfold PharmacySearchPanel.handleDispatch.
  destruct (SearchState.selectedPharmacyId rendered) as [ chosen | ];
    [ | reflexivity ].
  destruct Hgap as [ Hzero | Hempty ].
  - cbn [PharmacySearchPanel.noPharmacy] in Hzero. rewrite Hzero.
    rewrite orb_true_r. reflexivity.
  - rewrite Hempty. cbn [truthy negb]. rewrite orb_true_r. reflexivity.
Qed.

(** C6, as the code has it. A successful dispatch by an enabled doctor
    sends exactly one dispatch request naming the entered prescription and
    the chosen pharmacy, shows the success message and clears the entered
    prescription id; it calls no status-updated callback and leaves the
    pending count and the prescriptions panel as they were. *)
Theorem C6_successful_dispatch_sends_one_request
  token rendered sys chosen w st done :
  noToken token = false ->
  SearchState.selectedPharmacyId rendered = Some chosen ->
  chosen <> 0 ->
  SearchState.prescriptionId rendered <> EmptyString ->
  let request := {| endpoint := Dispatch (SearchState.prescriptionId rendered) chosen;
                    bearer := token |} in
  service (world sys) request = (w, Ok2xx st done) ->
  let sys' := exec (PharmacySearchPanel.handleDispatch service token
                      (Some DOCTOR) rendered) sys in
  sys' = {| world := w;
            trace := trace sys ++ [Fetch request];
            panel := panel sys;
            search :=
              SearchState.setLoading false
                (SearchState.setPrescriptionId EmptyString
                   (SearchState.setMessage (Some PharmacySearchPanel.dispatched)
                      (SearchState.setMessage None
                         (SearchState.setLoading true (search sys)))));
            pendingReceivedCount := pendingReceivedCount sys |}
  /\ notifications (trace sys') = notifications (trace sys).
Proof.
  intros Htok Hsel Hnz Hid request Hok sys'. subst sys' request.
  unfold PharmacySearchPanel.handleDispatch, PharmacySearchPanel.disabled.
  rewrite Hsel, Htok. apply Z.eqb_neq in Hnz. rewrite Hnz.
  destruct (SearchState.prescriptionId rendered) as [ | c rest ] eqn:Hpid;
    [ congruence | ].
  cbn [roleIs Role_eqb negb orb truthy]. setters.
  rewrite !exec_updateSearch, exec_apiRequest.
  cbn [world trace panel search pendingReceivedCount]. rewrite Hok.
  cbn [settle]. split; [ reflexivity | ].
  cbn [exec bind updateSearch snd trace]. unfold notifications.
  rewrite filter_app. cbn. rewrite app_nil_r. reflexivity.
Qed.

(** C8, as the code has it. On a response that is not 2xx, [apiRequest]
    throws an [ApiError] carrying the response status and a reason that
    is: the payload itself when it is a non-empty string; otherwise the
    [message] field, as a string, when the payload is a JSON object that
    has one; otherwise the generic failure string.  A [catch] block hands
    exactly this reason on, and the request was sent once. *)
Theorem C8_failure_reason q token sys w st contentType body :
  service (world sys) {| endpoint := q; bearer := token |}
  = (w, NotOk st contentType body) ->
  let payload := readPayload contentType body in
  let run := apiRequest service q token sys in
  exists reason,
    fst run = Threw (ApiError reason st payload)
    /\ (forall fallback, errMessage (ApiError reason st payload) fallback = reason)
    /\ trace (snd run) = trace sys ++ [Fetch {| endpoint := q; bearer := token |}]
    /\ world (snd run) = w
    /\ (nonEmptyText payload = true -> payload = JStr reason)
    /\ (nonEmptyText payload = false ->
        forall m, messageField payload = Some m -> reason = toString m)
    /\ (nonEmptyText payload = false ->
        messageField payload = None -> reason = genericFailure).
Proof.
  intros Hreply payload run. subst run.
  unfold apiRequest, bind, fetch, ret. rewrite Hreply. cbn [settle fst snd].
  fold payload. clearbody payload. exists (errorMessage payload).
  repeat split; try reflexivity.
  - intros Hne.
    destruct payload as [ | b | n | text | items | fields ]; cbn in *;
      try discriminate.
    destruct text; cbn in *; [ discriminate | reflexivity ].
  - intros Hne m Hm.
    destruct payload as [ | b | n | text | items | fields ]; cbn in *;
      try discriminate.
    rewrite Hm. reflexivity.
  - intros Hne Hm.
    destruct payload as [ | b | n | text | items | fields ]; cbn in *;
      try reflexivity.
    + destruct text; cbn in *; [ reflexivity | discriminate ].
    + rewrite Hm. reflexivity.
Qed.

(** What one run of [loadPrescriptions] leaves on record and in the list. *)
Lemma loadPrescriptions_refreshes token rendered s :
  noToken token = false ->
  let request := {| endpoint := ListPrescriptions; bearer := token |} in
  let s' := exec (PrescriptionsPanel.loadPrescriptions service token rendered) s in
  (exists extra, trace s' = trace s ++ Fetch request :: extra
                 /\ forallb isRead extra = true)
  /\ PanelState.prescriptions (panel s')
     = match settle (snd (service (world s) request)) with
       | Returned data => data
       | Threw _ => PanelState.prescriptions (panel s)
       end.
Proof.
  intros Htok request s'. subst s' request.
  unfold PrescriptionsPanel.loadPrescriptions, PrescriptionsPanel.disabled.
  rewrite Htok. setters. rewrite !exec_updatePanel, exec_apiRequest.
  cbn [world trace panel search pendingReceivedCount].
  destruct (service (world s) _) as [w reply]. cbn [snd].
  destruct (settle reply) as [ data | error ].
  2:{ cbn. split; [ exists []; auto | reflexivity ]. }
  rewrite exec_bind, exec_updatePanel.
  cbn [world trace panel search pendingReceivedCount].
  assert (Pick : forall n s0,
    let s1 := exec (PrescriptionsPanel.selectPrescription service token n) s0 in
    (exists extra, trace s1 = trace s0 ++ extra /\ forallb isRead extra = true)
    /\ PanelState.prescriptions (panel s1) = PanelState.prescriptions (panel s0)).
  { intros n s0 s1. subst s1. split.
    - apply (selectPrescription_reads token n s0).
    - rewrite selectPrescription_run by assumption. cbn zeta.
      destruct (service (world s0) _) as [w2 replyD]. cbn [panel].
      destruct (settle replyD); reflexivity. }
  assert (Done : forall s1 : Sys World,
    trace (exec (updatePanel (PanelState.setLoading false)) s1) = trace s1
    /\ PanelState.prescriptions
         (panel (exec (updatePanel (PanelState.setLoading false)) s1))
       = PanelState.prescriptions (panel s1)) by (intros; split; reflexivity).
  match goal with
  | |- context [exec ?body ?s0] =>
      lazymatch body with
      | updatePanel _ => fail
      | _ => set (branch := body); set (listed := s0)
      end
  end.
  assert (Branch :
    (exists extra, trace (exec branch listed) = trace listed ++ extra
                   /\ forallb isRead extra = true)
    /\ PanelState.prescriptions (panel (exec branch listed)) = data).
  { assert (Stay : (exists extra, trace listed = trace listed ++ extra
                                  /\ forallb isRead extra = true)
                   /\ PanelState.prescriptions (panel listed) = data).
    { split; [ exists []; rewrite app_nil_r; auto | reflexivity ]. }
    subst branch. destruct data as [ | first rest ]; [ exact Stay | ].
    destruct (PanelState.selectedId rendered) as [ selected | ];
      [ destruct (negb _); [ | exact Stay ] | ];
      destruct (Pick (prescriptionId first) listed) as [P1 P2];
      (split; [ exact P1 | rewrite P2; reflexivity ]). }
  destruct Branch as [[extra [T R]] L].
  destruct (Done (exec branch listed)) as [D1 D2].
  rewrite D1, D2, T, L. split; [ | reflexivity ].
  exists extra. subst listed. cbn [trace]. rewrite <- app_assoc. auto.
Qed.

(** What one run of the aggregator does for a logged-in pharmacist. *)
Lemma refreshPendingReceivedCount_run authState s :
  App.role authState = Some PHARMACIST ->
  noToken (App.token authState) = false ->
  exec (App.refreshPendingReceivedCount service authState) s
  = let request := {| endpoint := ListPrescriptions;
                      bearer := App.token authState |} in
    let (w, reply) := service (world s) request in
    {| world := w;
       trace := trace s ++ [Fetch request];
       panel := panel s;
       search := search s;
       pendingReceivedCount :=
         match settle reply with
         | Returned data => Some (List.length (filter App.isReceived data))
         | Threw _ => None
         end |}.
Proof.
  intros Hrole Htok. unfold App.refreshPendingReceivedCount.
  rewrite Hrole, Htok. cbn [roleIs Role_eqb negb orb].
  rewrite exec_apiRequest. cbn zeta.
  destruct (service (world s) _) as [w reply].
  destruct (settle reply); reflexivity.
Qed.

Lemma reads_carry_no_notification (evs : list Event) :
  forallb isRead evs = true -> filter isStatusUpdated evs = [].
Proof.
  induction evs as [ | e evs IH ]; [ reflexivity | ].
  cbn [forallb filter]. intros H. apply andb_prop in H as [He Hevs].
  destruct e; [ cbn; auto | discriminate ].
Qed.

(** The detail one run of [loadPrescriptions] leaves, given the service's
    answers. *)
Lemma loadPrescriptions_detail token rendered s :
  noToken token = false ->
  let ask q := {| endpoint := q; bearer := token |} in
  let listing := service (world s) (ask ListPrescriptions) in
  PanelState.selectedDetail
    (panel (exec (PrescriptionsPanel.loadPrescriptions service token rendered) s))
  = match settle (snd listing) with
    | Threw _ => PanelState.selectedDetail (panel s)
    | Returned [] => None
    | Returned (first :: rest) =>
        if match PanelState.selectedId rendered with
           | Some selected =>
               existsb (fun item => prescriptionId item =? selected) (first :: rest)
           | None => false
           end
        then PanelState.selectedDetail (panel s)
        else
          match settle (snd (service (fst listing)
                               (ask (GetDetail (prescriptionId first))))) with
          | Returned detail => Some detail
          | Threw _ => PanelState.selectedDetail (panel s)
          end
    end.
Proof.
  intros Htok ask listing. subst listing.
  unfold PrescriptionsPanel.loadPrescriptions, PrescriptionsPanel.disabled.
  rewrite Htok. setters. rewrite !exec_updatePanel, exec_apiRequest.
  cbn [world trace panel search pendingReceivedCount].
  fold (ask ListPrescriptions).
  destruct (service (world s) (ask ListPrescriptions)) as [w reply].
  cbn [fst snd]. destruct (settle reply) as [ data | error ]; [ | reflexivity ].
  rewrite exec_bind, exec_updatePanel.
  cbn [world trace panel search pendingReceivedCount].
  destruct data as [ | first rest ]; [ reflexivity | ].
  assert (Fallback : forall s0 : Sys World,
    world s0 = w ->
    PanelState.selectedDetail (panel s0) = PanelState.selectedDetail (panel s) ->
    PanelState.selectedDetail
      (panel (exec (updatePanel (PanelState.setLoading false))
                (exec (PrescriptionsPanel.selectPrescription service token
                         (prescriptionId first)) s0)))
    = match settle (snd (service w (ask (GetDetail (prescriptionId first))))) with
      | Returned detail => Some detail
      | Threw _ => PanelState.selectedDetail (panel s)
      end).
  { intros s0 Hw Hsame. rewrite selectPrescription_run by assumption.
    cbn zeta. rewrite Hw. fold (ask (GetDetail (prescriptionId first))).
    destruct (service w (ask (GetDetail (prescriptionId first)))) as [w2 replyD].
    cbn [snd]. destruct (settle replyD); cbn; [ reflexivity | exact Hsame ]. }
  destruct (PanelState.selectedId rendered) as [ selected | ].
  - destruct (existsb _ (first :: rest)); cbn [negb].
    + reflexivity.
    + apply Fallback; reflexivity.
  - apply Fallback; reflexivity.
Qed.

(** C7, as the code has it. A successful advance, as wired in [App],
    re-fetches the selected detail and the list, then calls the
    status-updated callback exactly once, whether or not those re-fetches
    succeeded: a re-fetch that succeeds puts the fetched list and detail in
    the panel before the call, one that fails leaves the old value there.
    The aggregator the call triggers fetches the list and sets the pending
    count to the number of prescriptions in that list whose status is
    RECEIVED. *)
Theorem C7_successful_advance_notifies_once
  authState rendered d next sys w1 st done :
  App.role authState = Some PHARMACIST ->
  noToken (App.token authState) = false ->
  PanelState.selectedDetail rendered = Some d ->
  PrescriptionsPanel.getNextStatus (status d) = Some next ->
  let token := App.token authState in
  let ask q := {| endpoint := q; bearer := token |} in
  service (world sys) (ask (PatchStatus (prescriptionId d) next))
  = (w1, Ok2xx st done) ->
  let sys' := exec (App.advanceFromPanel service authState rendered) sys in
  let fetched := service w1 (ask (GetDetail (prescriptionId d))) in
  let listing := service (fst fetched) (ask ListPrescriptions) in
  let listed := settle (snd listing) in
  let afterDetail :=
    match settle (snd fetched) with
    | Returned detail => Some detail
    | Threw _ => PanelState.selectedDetail (panel sys)
    end in
  exists extra w reply,
    trace sys'
    = trace sys
      ++ [Fetch (ask (PatchStatus (prescriptionId d) next));
          Fetch (ask (GetDetail (prescriptionId d)));
          Fetch (ask ListPrescriptions)]
      ++ extra
      ++ [StatusUpdated; Fetch (ask ListPrescriptions)]
    /\ forallb isRead extra = true
    /\ notifications (trace sys') = S (notifications (trace sys))
    /\ PanelState.prescriptions (panel sys')
       = match listed with
         | Returned data => data
         | Threw _ => PanelState.prescriptions (panel sys)
         end
    /\ PanelState.selectedDetail (panel sys')
       = match listed with
         | Threw _ => afterDetail
         | Returned [] => None
         | Returned (first :: rest) =>
             if match PanelState.selectedId rendered with
                | Some selected =>
                    existsb (fun item => prescriptionId item =? selected)
                      (first :: rest)
                | None => false
                end
             then afterDetail
             else
               match settle (snd (service (fst listing)
                                    (ask (GetDetail (prescriptionId first))))) with
               | Returned detail => Some detail
               | Threw _ => afterDetail
               end
         end
    /\ PanelState.message (panel sys') = Some PrescriptionsPanel.statusUpdated
    /\ service w (ask ListPrescriptions) = (world sys', reply)
    /\ pendingReceivedCount sys'
       = match settle reply with
         | Returned data => Some (List.length (filter App.isReceived data))
         | Threw _ => None
         end.
Proof.
  intros Hrole Htok Hd Hnext token ask Hpatch sys' fetched listing listed
    afterDetail.
  assert (Hrun : sys' = exec (App.advanceFromPanel service authState rendered) sys)
    by reflexivity.
  clearbody sys'. subst afterDetail listed listing fetched.
  pose proof Htok as Htoken. change (noToken token = false) in Htoken.
  unfold App.advanceFromPanel, PrescriptionsPanel.handleAdvanceStatus,
    PrescriptionsPanel.disabled in Hrun.
  fold token in Hrun. rewrite Hd, Htoken, Hnext, Hrole in Hrun.
  cbn [roleIs Role_eqb negb orb] in Hrun.
  unfold PrescriptionsPanel.setLoading at 1, PrescriptionsPanel.setMessage at 1
    in Hrun.
  rewrite !exec_updatePanel, exec_apiRequest in Hrun.
  cbn [world trace panel search pendingReceivedCount] in Hrun.
  fold (ask (PatchStatus (prescriptionId d) next)) in Hrun.
  rewrite Hpatch in Hrun. cbn [settle] in Hrun.
  set (select := PrescriptionsPanel.selectPrescription service token
                   (prescriptionId d)) in Hrun.
  set (load := PrescriptionsPanel.loadPrescriptions service token rendered)
    in Hrun.
  set (aggregate := App.refreshPendingReceivedCount service authState) in Hrun.
  set (patched := {| world := w1 |}) in Hrun.
  unfold PrescriptionsPanel.setLoading, PrescriptionsPanel.setMessage in Hrun.
  rewrite exec_bind, (exec_bind select), (exec_bind load), exec_updatePanel,
    exec_emit in Hrun.
  set (selected := exec select patched) in Hrun.
  set (loaded := exec load selected) in Hrun.
  assert (Hselected : selected
    = let (w, reply) := service w1 (ask (GetDetail (prescriptionId d))) in
      {| world := w;
         trace := trace patched ++ [Fetch (ask (GetDetail (prescriptionId d)))];
         panel := match settle reply with
                  | Returned detail =>
                      PanelState.setSelectedDetail (Some detail)
                        (PanelState.setSelectedId (Some (prescriptionId d))
                           (panel patched))
                  | Threw error =>
                      PanelState.setMessage
                        (Some (errMessage error PrescriptionsPanel.detailFailed))
                        (PanelState.setSelectedId (Some (prescriptionId d))
                           (panel patched))
                  end;
         search := search patched;
         pendingReceivedCount := pendingReceivedCount patched |}).
  { subst selected select. rewrite selectPrescription_run by assumption.
    reflexivity. }
  destruct (loadPrescriptions_refreshes token rendered selected Htoken)
    as [[extra [Tload Rload]] Lload].
  fold load in Tload, Lload. fold loaded in Tload, Lload.
  match type of Hrun with
  | context [exec aggregate ?s] => set (notified := s) in Hrun
  end.
  pose proof (refreshPendingReceivedCount_run authState notified Hrole Htok)
    as Hagg.
  fold aggregate in Hagg. cbn zeta in Hagg. fold token in Hagg.
  fold (ask ListPrescriptions) in Hagg, Tload, Lload.
  destruct (service (world notified) (ask ListPrescriptions))
    as [w reply] eqn:Hlast.
  rewrite Hagg in Hrun.
  cbn [exec updatePanel snd world trace panel pendingReceivedCount] in Hrun.
  assert (Htrace : trace loaded
    = trace sys
      ++ [Fetch (ask (PatchStatus (prescriptionId d) next));
          Fetch (ask (GetDetail (prescriptionId d)));
          Fetch (ask ListPrescriptions)] ++ extra).
  { rewrite Tload, Hselected.
    destruct (service w1 (ask (GetDetail (prescriptionId d)))) as [w2 replyD].
    subst patched. cbn [trace]. rewrite <- !app_assoc. reflexivity. }
  assert (Hlist : PanelState.prescriptions (panel loaded)
    = match settle (snd (service (fst (service w1 (ask (GetDetail (prescriptionId d)))))
                           (ask ListPrescriptions))) with
      | Returned data => data
      | Threw _ => PanelState.prescriptions (panel sys)
      end).
  { rewrite Lload, Hselected.
    destruct (service w1 (ask (GetDetail (prescriptionId d)))) as [w2 replyD].
    cbn [world fst panel]. destruct (settle (snd (service w2 _))); [ reflexivity | ].
    subst patched. destruct (settle replyD); reflexivity. }
  assert (Hshown : PanelState.selectedDetail (panel loaded)
    = match settle (snd (service (fst (service w1 (ask (GetDetail (prescriptionId d)))))
                           (ask ListPrescriptions))) with
      | Threw _ =>
          match settle (snd (service w1 (ask (GetDetail (prescriptionId d))))) with
          | Returned detail => Some detail
          | Threw _ => PanelState.selectedDetail (panel sys)
          end
      | Returned [] => None
      | Returned (first :: rest) =>
          if match PanelState.selectedId rendered with
             | Some chosen =>
                 existsb (fun item => prescriptionId item =? chosen) (first :: rest)
             | None => false
             end
          then
            match settle (snd (service w1 (ask (GetDetail (prescriptionId d))))) with
            | Returned detail => Some detail
            | Threw _ => PanelState.selectedDetail (panel sys)
            end
          else
            match settle
                    (snd (service
                            (fst (service
                                    (fst (service w1
                                            (ask (GetDetail (prescriptionId d)))))
                                    (ask ListPrescriptions)))
                            (ask (GetDetail (prescriptionId first))))) with
            | Returned detail => Some detail
            | Threw _ =>
                match settle (snd (service w1 (ask (GetDetail (prescriptionId d))))) with
                | Returned detail => Some detail
                | Threw _ => PanelState.selectedDetail (panel sys)
                end
            end
      end).
  { subst loaded load.
    rewrite (loadPrescriptions_detail token rendered selected Htoken).
    cbn zeta. fold (ask ListPrescriptions). rewrite Hselected.
    destruct (service w1 (ask (GetDetail (prescriptionId d)))) as [w2 replyD].
    cbn [world fst snd panel].
    assert (Hafter :
      PanelState.selectedDetail
        match settle replyD with
        | Returned detail =>
            PanelState.setSelectedDetail (Some detail)
              (PanelState.setSelectedId (Some (prescriptionId d)) (panel patched))
        | Threw error =>
            PanelState.setMessage
              (Some (errMessage error PrescriptionsPanel.detailFailed))
              (PanelState.setSelectedId (Some (prescriptionId d)) (panel patched))
        end
      = match settle replyD with
        | Returned detail => Some detail
        | Threw _ => PanelState.selectedDetail (panel sys)
        end)
      by (subst patched; destruct (settle replyD); reflexivity).
    rewrite Hafter. reflexivity. }
  exists extra, (world notified), reply.
  rewrite Hrun. cbn [world trace panel pendingReceivedCount
    PanelState.setLoading PanelState.setMessage PanelState.prescriptions
    PanelState.selectedDetail PanelState.message].
  subst notified. cbn [world trace panel] in *.
  rewrite Htrace. repeat split.
  - rewrite <- !app_assoc. reflexivity.
  - assumption.
  - unfold notifications. rewrite !filter_app, !length_app.
    rewrite (reads_carry_no_notification extra Rload). cbn. lia.
  - exact Hlist.
  - exact Hshown.
  - exact Hlast.
Qed.

(** What a successful search does to the selected pharmacy: the first
    result becomes the selection; with no result the selection stays as it
    was. *)
Lemma handleSearch_selection token rendered sys w st data :
  noToken token = false ->
  SearchState.keyword rendered <> EmptyString ->
  service (world sys)
    {| endpoint := SearchPharmacies (SearchState.keyword rendered);
       bearer := token |}
  = (w, Ok2xx st data) ->
  let sys' := exec (PharmacySearchPanel.handleSearch service token
                      (Some DOCTOR) rendered) sys in
  SearchState.results (search sys') = data
  /\ SearchState.selectedPharmacyId (search sys')
     = match data with
       | first :: _ => Some (id first)
       | [] => SearchState.selectedPharmacyId (search sys)
       end.
Proof.
  intros Htok Hkw Hok sys'. subst sys'.
  unfold PharmacySearchPanel.handleSearch, PharmacySearchPanel.disabled.
  rewrite Htok.
  destruct (SearchState.keyword rendered) as [ | c rest ] eqn:Hk;
    [ congruence | ].
  cbn [roleIs Role_eqb negb orb truthy]. setters.
  rewrite !exec_updateSearch, exec_apiRequest.
  cbn [world trace panel search pendingReceivedCount]. rewrite Hok.
  cbn [settle]. destruct data; split; reflexivity.
Qed.

(** C1. For an enabled pharmacist, advance computes the next status as
    the immediate successor in CREATED, RECEIVED, DISPENSING, COMPLETED:
    from RECEIVED it sends one status update targeting DISPENSING, from
    DISPENSING one targeting COMPLETED (no other status update follows in
    the same run); from CREATED or COMPLETED it sends nothing and sets the
    no-successor message. *)
Theorem C1_advance_targets_successor token onStatusUpdated rendered d sys :
  PanelState.selectedDetail rendered = Some d ->
  noToken token = false ->
  (forall callback, onStatusUpdated = Some callback -> appends quiet callback) ->
  let sys' := exec (PrescriptionsPanel.handleAdvanceStatus service token
                      (Some PHARMACIST) onStatusUpdated rendered) sys in
  let patch next :=
    Fetch {| endpoint := PatchStatus (prescriptionId d) next; bearer := token |} in
  match status d with
  | RECEIVED =>
      exists evs, trace sys' = trace sys ++ patch DISPENSING :: evs
                  /\ forallb quiet evs = true
  | DISPENSING =>
      exists evs, trace sys' = trace sys ++ patch COMPLETED :: evs
                  /\ forallb quiet evs = true
  | CREATED | COMPLETED =>
      trace sys' = trace sys /\ world sys' = world sys
      /\ PanelState.message (panel sys')
         = Some PrescriptionsPanel.noFurtherChange
  end.
Proof.
  intros Hd Htok Hcb sys' patch. subst sys' patch.
  destruct (status d) eqn:Hst;
    try (apply advance_single_patch; auto; rewrite Hst; reflexivity);
    unfold PrescriptionsPanel.handleAdvanceStatus, PrescriptionsPanel.disabled;
    rewrite Hd, Htok, Hst; cbn; auto.
Qed.

End Properties.

(** The status update of C1 on the wire. *)
Example advance_request_on_the_wire :
  let q := PatchStatus 12 DISPENSING in
  requestMethod q = PATCH
  /\ requestPath q = "/prescriptions/12/status"%string
  /\ requestJson q = Some (JObj [("status"%string, JStr "DISPENSING")]).
Proof. repeat split. Qed.

Example search_request_on_the_wire :
  requestPath (SearchPharmacies "new center/1") =
  "/pharmacies?keyword=new%20center%2F1&size=10"%string.
Proof. reflexivity. Qed.

(** The successor table behind C1, status by status. *)
Example getNextStatus_table :
  map PrescriptionsPanel.getNextStatus [CREATED; RECEIVED; DISPENSING; COMPLETED]
  = [None; Some DISPENSING; Some COMPLETED; None].
Proof. reflexivity. Qed.

Lemma C1_witness :
  exists evs,
    trace (exec (App.advanceFromPanel Sample.clinic Sample.pharmacist
                   (Sample.showing 12 RECEIVED))
             (Sample.start [Sample.detailOf 12 RECEIVED]))
    = [] ++ Fetch {| endpoint := PatchStatus 12 DISPENSING;
                     bearer := Some "pharmacist-token" |} :: evs
    /\ forallb quiet evs = true.
Proof.
  apply (C1_advance_targets_successor Sample.clinic (Some "pharmacist-token")
           (Some (App.refreshPendingReceivedCount Sample.clinic Sample.pharmacist))
           (Sample.showing 12 RECEIVED) (Sample.detailOf 12 RECEIVED)
           (Sample.start [Sample.detailOf 12 RECEIVED])).
  - reflexivity.
  - reflexivity.
  - intros callback H. injection H as <-.
    apply refreshPendingReceivedCount_quiet.
Defined.





Lemma C3_witness :
  let shown := Sample.withPanel (Sample.showing 12 RECEIVED)
                 (Sample.start [Sample.detailOf 12 RECEIVED]) in
  exec (PrescriptionsPanel.handleAdvanceStatus Sample.clinic (Some "doctor-token")
          (Some DOCTOR) None (Sample.showing 12 RECEIVED)) shown
  = shown.
Proof.
  apply (C3_non_pharmacist_advance_is_silent Sample.clinic (Some "doctor-token")
           (Some DOCTOR) None (Sample.showing 12 RECEIVED)).
  discriminate.
Defined.

(** C3 as stated fails: a doctor's advance on a RECEIVED prescription sets no
    message at all. *)
Lemma C3_counterexample :
  ~ panelMessageShown
      (exec (PrescriptionsPanel.handleAdvanceStatus Sample.clinic
               (Some "doctor-token") (Some DOCTOR) None
               (Sample.showing 12 RECEIVED))
         (Sample.withPanel (Sample.showing 12 RECEIVED)
            (Sample.start [Sample.detailOf 12 RECEIVED]))).
Proof.
  intros [m H]. vm_compute in H. discriminate H.
Qed.

Lemma C4_witness :
  let typed := Sample.choosing "center" [] None "12" in
  let sys := Sample.withSearch typed (Sample.start [Sample.detailOf 12 CREATED]) in
  exec (PharmacySearchPanel.handleDispatch Sample.clinic (Some "doctor-token")
          (Some DOCTOR) typed) sys
  = sys.
Proof.
  apply (C4_incomplete_dispatch_is_silent Sample.clinic (Some "doctor-token")
           (Some DOCTOR) (Sample.choosing "center" [] None "12")).
  left. reflexivity.
Defined.

(** C4 as stated fails: a dispatch without a selected pharmacy sets no
    message at all. *)
Lemma C4_counterexample :
  ~ searchMessageShown
      (exec (PharmacySearchPanel.handleDispatch Sample.clinic
               (Some "doctor-token") (Some DOCTOR)
               (Sample.choosing "center" [] None "12"))
         (Sample.withSearch (Sample.choosing "center" [] None "12")
            (Sample.start [Sample.detailOf 12 CREATED]))).
Proof.
  intros [m H]. vm_compute in H. discriminate H.
Qed.

Lemma C6_witness :
  let typed := Sample.choosing "Center" [Sample.pharmacy7] (Some 7) "12" in
  let sys := Sample.withSearch typed (Sample.start [Sample.detailOf 12 CREATED]) in
  let sys' := exec (PharmacySearchPanel.handleDispatch Sample.clinic
                      (Some "doctor-token") (Some DOCTOR) typed) sys in
  trace sys' = [Fetch {| endpoint := Dispatch "12" 7; bearer := Some "doctor-token" |}]
  /\ notifications (trace sys') = 0%nat.
Proof.
  destruct (C6_successful_dispatch_sends_one_request Sample.clinic
              (Some "doctor-token")
              (Sample.choosing "Center" [Sample.pharmacy7] (Some 7) "12")
              (Sample.withSearch
                 (Sample.choosing "Center" [Sample.pharmacy7] (Some 7) "12")
                 (Sample.start [Sample.detailOf 12 CREATED]))
              7 [Sample.sentTo 7 (Sample.detailOf 12 CREATED)] 200 tt
              eq_refl eq_refl) as [Hrun Hquiet].
  - discriminate.
  - discriminate.
  - reflexivity.
  - split; [ rewrite Hrun; reflexivity | exact Hquiet ].
Defined.

(** C6 as stated fails: prescription 12 is dispatched to pharmacy 7 and the
    service confirms, yet no status-updated callback is called. *)
Lemma C6_counterexample :
  let typed := Sample.choosing "Center" [Sample.pharmacy7] (Some 7) "12" in
  let sys := Sample.withSearch typed (Sample.start [Sample.detailOf 12 CREATED]) in
  let sys' := exec (PharmacySearchPanel.handleDispatch Sample.clinic
                      (Some "doctor-token") (Some DOCTOR) typed) sys in
  map (fun d : PrescriptionDetail => status d) (world sys') = [RECEIVED]
  /\ map pharmacy (world sys') = [Some Sample.pharmacy7]
  /\ pendingReceivedCount sys' = pendingReceivedCount sys
  /\ ~ signalFired sys sys'.
Proof.
  repeat split. unfold signalFired. vm_compute. lia.
Qed.

Lemma C7_witness :
  let db := [Sample.detailOf 12 RECEIVED; Sample.detailOf 5 RECEIVED;
             Sample.detailOf 8 COMPLETED] in
  let sys := Sample.withPanel (Sample.showing 12 RECEIVED) (Sample.start db) in
  let sys' := exec (App.advanceFromPanel Sample.clinic Sample.pharmacist
                      (Sample.showing 12 RECEIVED)) sys in
  notifications (trace sys') = 1%nat
  /\ PanelState.selectedDetail (panel sys') = Some (Sample.detailOf 12 DISPENSING)
  /\ PanelState.prescriptions (panel sys')
     = [Sample.summaryOf 12 DISPENSING; Sample.summaryOf 5 RECEIVED;
        Sample.summaryOf 8 COMPLETED].
Proof.
  destruct (C7_successful_advance_notifies_once Sample.clinic Sample.pharmacist
              (Sample.showing 12 RECEIVED) (Sample.detailOf 12 RECEIVED) DISPENSING
              (Sample.withPanel (Sample.showing 12 RECEIVED)
                 (Sample.start [Sample.detailOf 12 RECEIVED;
                                Sample.detailOf 5 RECEIVED;
                                Sample.detailOf 8 COMPLETED]))
              [Sample.detailOf 12 DISPENSING; Sample.detailOf 5 RECEIVED;
               Sample.detailOf 8 COMPLETED] 200 tt
              eq_refl eq_refl eq_refl eq_refl eq_refl)
    as [extra [w [reply [_ [_ [Hcount [Hlist [Hdetail _]]]]]]]].
  split; [ exact Hcount | ]. split; [ exact Hdetail | exact Hlist ].
Defined.

(** C7 as stated fails: the advance of prescription 12 succeeds and the
    service holds it as DISPENSING, the re-fetch of the detail fails, and
    the callback is called all the same while the panel still shows the
    RECEIVED detail. *)
Lemma C7_counterexample :
  let sys := Sample.withPanel (Sample.showing 12 RECEIVED)
               (Sample.start [Sample.detailOf 12 RECEIVED]) in
  let sys' := exec (App.advanceFromPanel Cases.noDetail Sample.pharmacist
                      (Sample.showing 12 RECEIVED)) sys in
  signalFired sys sys'
  /\ world sys' = [Sample.detailOf 12 DISPENSING]
  /\ PanelState.selectedDetail (panel sys') = Some (Sample.detailOf 12 RECEIVED)
  /\ PanelState.selectedDetail (panel sys') <> Some (Sample.detailOf 12 DISPENSING).
Proof.
  split; [ unfold signalFired; vm_compute; lia | ].
  split; [ reflexivity | ]. split; [ reflexivity | ].
  intros H. vm_compute in H. discriminate H.
Qed.

(** The run behind the witness of C7, in full: after the advance of
    prescription 12 one RECEIVED prescription is left to count. *)
Example advance_leaves_one_pending :
  let sys' := exec (App.advanceFromPanel Sample.clinic Sample.pharmacist
                      (Sample.showing 12 RECEIVED))
                (Sample.start [Sample.detailOf 12 RECEIVED; Sample.detailOf 5 RECEIVED;
                               Sample.detailOf 8 COMPLETED]) in
  pendingReceivedCount sys' = Some 1%nat
  /\ map isStatusUpdated (trace sys') = [false; false; false; true; false].
Proof. split; reflexivity. Qed.

Lemma C8_witness :
  exists reason,
    fst (apiRequest Sample.clinic (GetDetail 40) (Some "pharmacist-token")
           (Sample.start [Sample.detailOf 12 RECEIVED]))
    = Threw (ApiError reason 404 (JObj [("message", JStr "not found")]))
    /\ reason = "not found"%string.
Proof.
  destruct (C8_failure_reason Sample.clinic (GetDetail 40) (Some "pharmacist-token")
              (Sample.start [Sample.detailOf 12 RECEIVED])
              [Sample.detailOf 12 RECEIVED] 404 (Some "application/json")
              Sample.notFound eq_refl)
    as [reason [Hthrown [_ [_ [_ [_ [Hmessage _]]]]]]].
  exists reason. split; [ exact Hthrown | ].
  apply (Hmessage eq_refl (JStr "not found") eq_refl).
Defined.

(** C8 as stated fails: on a 500 response whose JSON body is the string
    ["oops"], a JSON body without a [message] field, the reason is that
    string and not the generic failure string. *)
Lemma C8_counterexample :
  fst (apiRequest Cases.jsonString ListPrescriptions (Some "pharmacist-token")
         (Sample.start tt))
  = Threw (ApiError "oops" 500 (JStr "oops"))
  /\ reasonAsSpecified (Some "application/json")
       {| bodyText := None; bodyJson := Some (JStr "oops") |}
     = genericFailure
  /\ "oops"%string <> genericFailure.
Proof.
  split; [ reflexivity | ]. split; [ reflexivity | ].
  intros H. vm_compute in H. discriminate H.
Qed.

(** C9, evaluated where it fails. Pharmacy 7 was selected by an earlier
    search; a new search returns no result, the list of results is emptied
    but pharmacy 7 stays selected, and dispatch then sends prescription 12 to
    it. *)
Lemma C9_empty_search_keeps_stale_selection :
  let typed := Sample.choosing "nowhere" [Sample.pharmacy7] (Some 7) "12" in
  let sys := Sample.withSearch typed (Sample.start [Sample.detailOf 12 CREATED]) in
  let searched := exec (PharmacySearchPanel.handleSearch Sample.clinic
                          (Some "doctor-token") (Some DOCTOR) typed) sys in
  let sent := exec (PharmacySearchPanel.handleDispatch Sample.clinic
                      (Some "doctor-token") (Some DOCTOR) (search searched))
                searched in
  SearchState.results (search searched) = []
  /\ SearchState.selectedPharmacyId (search searched) = Some 7
  /\ trace sent
     = [Fetch {| endpoint := SearchPharmacies "nowhere";
                 bearer := Some "doctor-token" |};
        Fetch {| endpoint := Dispatch "12" 7; bearer := Some "doctor-token" |}]
  /\ map (fun d : PrescriptionDetail => status d) (world sent) = [RECEIVED].
Proof. repeat split. Qed.

(** * Further properties of the handlers *)

Section Keeping.

Context {World X : Type}.
Variable part : Sys World -> X.

Lemma keeps_ret {A : Type} (a : A) : keeps part (ret a).
Proof. intros s. reflexivity. Qed.

Lemma keeps_bind {A B : Type} (m : M World A) (k : A -> M World B) :
  keeps part m -> (forall a, keeps part (k a)) -> keeps part (bind m k).
Proof.
  intros Hm Hk s. unfold bind. specialize (Hm s).
  destruct (m s) as [a s1]. cbn [snd] in Hm. rewrite Hk. exact Hm.
Qed.

End Keeping.

Section KeepingParts.

Context {World : Type} (service : Service World).

Lemma keeps_search_updatePanel f :
  keeps (World := World) (fun s => (search s, pendingReceivedCount s)) (updatePanel f).
Proof. intros s. reflexivity. Qed.

Lemma keeps_search_fetch r :
  keeps (fun s => (search s, pendingReceivedCount s)) (fetch service r).
Proof.
  intros s. unfold fetch. destruct (service (world s) r). reflexivity.
Qed.

Lemma keeps_panel_updateSearch f :
  keeps (World := World) (fun s => (panel s, pendingReceivedCount s)) (updateSearch f).
Proof. intros s. reflexivity. Qed.

Lemma keeps_panel_fetch r :
  keeps (fun s => (panel s, pendingReceivedCount s)) (fetch service r).
Proof.
  intros s. unfold fetch. destruct (service (world s) r). reflexivity.
Qed.

End KeepingParts.

Create HintDb keeping.

#[local] Hint Resolve keeps_ret keeps_search_updatePanel keeps_search_fetch
  keeps_panel_updateSearch keeps_panel_fetch : keeping.

(** Decompose a handler along its binds and branches. *)
Ltac keeping :=
  setters; unfold apiRequest;
  repeat first
    [ solve [ auto with keeping ]
    | apply keeps_bind; [ | intros ? ]
    | match goal with
      | |- keeps _ (match ?x with _ => _ end) => destruct x
      | |- keeps _ (if ?b then _ else _) => destruct b
      end ].

Section Handlers.

Context {World : Type} (service : Service World).

Lemma selectPrescription_keeps_search token n :
  keeps (fun s => (search s, pendingReceivedCount s))
    (PrescriptionsPanel.selectPrescription service token n).
Proof. unfold PrescriptionsPanel.selectPrescription. keeping. Qed.

#[local] Hint Resolve selectPrescription_keeps_search : keeping.

(** X1. The handlers of one panel never write the other panel's cells or
    the pending count: selecting and refreshing prescriptions leave the
    search panel alone, searching and dispatching leave the prescriptions
    panel alone. *)
Theorem handlers_keep_to_their_panel token role n renderedPanel renderedSearch sys :
  let untouchedSearch (m : M World unit) :=
    search (exec m sys) = search sys
    /\ pendingReceivedCount (exec m sys) = pendingReceivedCount sys in
  let untouchedPanel (m : M World unit) :=
    panel (exec m sys) = panel sys
    /\ pendingReceivedCount (exec m sys) = pendingReceivedCount sys in
  untouchedSearch (PrescriptionsPanel.selectPrescription service token n)
  /\ untouchedSearch (PrescriptionsPanel.loadPrescriptions service token renderedPanel)
  /\ untouchedPanel (PharmacySearchPanel.handleSearch service token role renderedSearch)
  /\ untouchedPanel (PharmacySearchPanel.handleDispatch service token role renderedSearch).
Proof.
  intros untouchedSearch untouchedPanel. subst untouchedSearch untouchedPanel.
  cbn beta.
  assert (Split : forall (A B : Type) (a a' : A) (b b' : B),
            (a, b) = (a', b') -> a = a' /\ b = b')
    by (intros A B a a' b b' H; injection H; auto).
  split; [ | split; [ | split ] ]; apply Split.
  - apply (selectPrescription_keeps_search token n sys).
  - assert (K : keeps (fun s => (search s, pendingReceivedCount s))
                  (PrescriptionsPanel.loadPrescriptions service token renderedPanel))
      by (unfold PrescriptionsPanel.loadPrescriptions; keeping).
    apply (K sys).
  - assert (K : keeps (fun s => (panel s, pendingReceivedCount s))
                  (PharmacySearchPanel.handleSearch service token role renderedSearch))
      by (unfold PharmacySearchPanel.handleSearch; keeping).
    apply (K sys).
  - assert (K : keeps (fun s => (panel s, pendingReceivedCount s))
                  (PharmacySearchPanel.handleDispatch service token role renderedSearch))
      by (unfold PharmacySearchPanel.handleDispatch; keeping).
    apply (K sys).
Qed.

(** X2. The successor table moves one place forward in CREATED, RECEIVED,
    DISPENSING, COMPLETED and never from CREATED: it never skips a status,
    never goes back, and yields nothing exactly for CREATED and COMPLETED. *)
Theorem getNextStatus_one_step_forward (current : PrescriptionStatus) :
  match PrescriptionsPanel.getNextStatus current with
  | Some next => rank next = S (rank current) /\ current <> CREATED
  | None => current = CREATED \/ current = COMPLETED
  end.
Proof.
  destruct current; vm_compute; auto; split; auto; intros H; discriminate H.
Qed.

Lemma ends_not_loading {A : Type} (m : M World A) s :
  PanelState.loading
    (panel (exec (bind m (fun _ => updatePanel (PanelState.setLoading false))) s))
  = false.
Proof. unfold exec, bind. destruct (m s). reflexivity. Qed.

(** X3. When the status update itself fails, advance sends nothing else and
    calls no callback: the list, the selected id and the shown detail stay
    as they were, the reason of the failure becomes the message and the
    panel is no longer loading. *)
Theorem failed_advance_only_reports
  token onStatusUpdated rendered d next sys w reply error :
  PanelState.selectedDetail rendered = Some d ->
  noToken token = false ->
  PrescriptionsPanel.getNextStatus (status d) = Some next ->
  let request := {| endpoint := PatchStatus (prescriptionId d) next;
                    bearer := token |} in
  service (world sys) request = (w, reply) ->
  settle reply = Threw error ->
  let sys' := exec (PrescriptionsPanel.handleAdvanceStatus service token
                      (Some PHARMACIST) onStatusUpdated rendered) sys in
  trace sys' = trace sys ++ [Fetch request]
  /\ world sys' = w
  /\ sameListAndSelection (panel sys) (panel sys')
  /\ PanelState.message (panel sys')
     = Some (errMessage error PrescriptionsPanel.updateFailed)
  /\ PanelState.loading (panel sys') = false
  /\ search sys' = search sys
  /\ pendingReceivedCount sys' = pendingReceivedCount sys.
Proof.
  intros Hd Htok Hnext request Hreply Hfail sys'. subst sys' request.
  unfold PrescriptionsPanel.handleAdvanceStatus, PrescriptionsPanel.disabled.
  rewrite Hd, Htok, Hnext. cbn [roleIs Role_eqb negb orb]. setters.
  rewrite !exec_updatePanel, exec_apiRequest.
  cbn [world trace panel search pendingReceivedCount].
  rewrite Hreply, Hfail. cbn. unfold sameListAndSelection. cbn. auto 10.
Qed.

(** X4. When the list cannot be fetched, the refresh changes neither the
    list nor the selection: it sends that one request, puts the reason in
    the message and ends not loading. *)
Theorem failed_refresh_keeps_list_and_selection
  token rendered sys w reply error :
  noToken token = false ->
  let request := {| endpoint := ListPrescriptions; bearer := token |} in
  service (world sys) request = (w, reply) ->
  settle reply = Threw error ->
  let sys' := exec (PrescriptionsPanel.loadPrescriptions service token rendered)
                sys in
  trace sys' = trace sys ++ [Fetch request]
  /\ world sys' = w
  /\ sameListAndSelection (panel sys) (panel sys')
  /\ PanelState.message (panel sys')
     = Some (errMessage error PrescriptionsPanel.listFailed)
  /\ PanelState.loading (panel sys') = false.
Proof.
  intros Htok request Hreply Hfail sys'. subst sys' request.
  unfold PrescriptionsPanel.loadPrescriptions, PrescriptionsPanel.disabled.
  rewrite Htok. setters. rewrite !exec_updatePanel, exec_apiRequest.
  cbn [world trace panel search pendingReceivedCount].
  rewrite Hreply, Hfail. cbn. unfold sameListAndSelection. cbn. auto 10.
Qed.

(** X5. Without a token the prescriptions panel never contacts the service:
    refresh, advance and the loading effect do nothing at all, and selecting
    a prescription only records the selected id. *)
Theorem no_token_no_request token role onStatusUpdated rendered n sys :
  noToken token = true ->
  exec (PrescriptionsPanel.loadPrescriptions service token rendered) sys = sys
  /\ exec (PrescriptionsPanel.handleAdvanceStatus service token role
             onStatusUpdated rendered) sys = sys
  /\ exec (PrescriptionsView.onTokenChange service token rendered) sys = sys
  /\ exec (PrescriptionsPanel.selectPrescription service token n) sys
     = {| world := world sys; trace := trace sys;
          panel := PanelState.setSelectedId (Some n) (panel sys);
          search := search sys;
          pendingReceivedCount := pendingReceivedCount sys |}.
Proof.
  intros Htok.
  unfold PrescriptionsPanel.loadPrescriptions,
    PrescriptionsPanel.handleAdvanceStatus, PrescriptionsView.onTokenChange,
    PrescriptionsPanel.selectPrescription, PrescriptionsPanel.disabled.
  rewrite Htok. cbn [negb orb].
  repeat split. destruct (PanelState.selectedDetail rendered); reflexivity.
Qed.

(** X6. A refresh that was sent, and an advance that was sent, always end
    with the panel not loading, whatever the service answers and whatever
    the status-updated callback does. *)
Theorem sent_handlers_end_not_loading
  token onStatusUpdated rendered d next sys :
  noToken token = false ->
  PanelState.selectedDetail rendered = Some d ->
  PrescriptionsPanel.getNextStatus (status d) = Some next ->
  PanelState.loading
    (panel (exec (PrescriptionsPanel.loadPrescriptions service token rendered) sys))
  = false
  /\ PanelState.loading
       (panel (exec (PrescriptionsPanel.handleAdvanceStatus service token
                       (Some PHARMACIST) onStatusUpdated rendered) sys))
     = false.
Proof.
  intros Htok Hd Hnext. split.
  - unfold PrescriptionsPanel.loadPrescriptions, PrescriptionsPanel.disabled.
    rewrite Htok. unfold PrescriptionsPanel.setLoading at 1,
      PrescriptionsPanel.setMessage at 1.
    rewrite !exec_updatePanel, exec_apiRequest.
    destruct (service _ _) as [w reply]. apply ends_not_loading.
  - unfold PrescriptionsPanel.handleAdvanceStatus, PrescriptionsPanel.disabled.
    rewrite Hd, Htok, Hnext. cbn [roleIs Role_eqb negb orb].
    unfold PrescriptionsPanel.setLoading at 1, PrescriptionsPanel.setMessage at 1.
    rewrite !exec_updatePanel, exec_apiRequest.
    destruct (service _ _) as [w reply]. apply ends_not_loading.
Qed.

(** X7. The guards of the search panel return at once: an empty keyword, a
    role other than DOCTOR or a missing token make a search do nothing, and
    a role other than DOCTOR or a missing token make a dispatch do nothing. *)
Theorem search_panel_guards_are_silent token role rendered sys :
  (SearchState.keyword rendered = EmptyString
   \/ role <> Some DOCTOR \/ noToken token = true ->
   exec (PharmacySearchPanel.handleSearch service token role rendered) sys = sys)
  /\ (role <> Some DOCTOR \/ noToken token = true ->
      exec (PharmacySearchPanel.handleDispatch service token role rendered) sys
      = sys).
Proof.
  assert (Off : role <> Some DOCTOR \/ noToken token = true ->
                PharmacySearchPanel.disabled token role = true).
  { unfold PharmacySearchPanel.disabled. intros [ Hrole | Htok ].
    - destruct role as [ [ | ] | ]; try congruence; reflexivity.
    - rewrite Htok. apply orb_true_r. }
  split.
  - intros H. unfold PharmacySearchPanel.handleSearch.
    destruct H as [ Hkw | H ].
    + rewrite Hkw. reflexivity.
    + rewrite (Off H), orb_true_r. reflexivity.
  - intros H. unfold PharmacySearchPanel.handleDispatch. rewrite (Off H).
    destruct (SearchState.selectedPharmacyId rendered); reflexivity.
Qed.

(** X8. A search that fails sends that one request and keeps the form:
    results, selected pharmacy and typed prescription id stay as they were,
    the reason of the failure becomes the message and the panel is no
    longer loading. *)
Theorem failed_search_keeps_results token rendered sys w reply error :
  noToken token = false ->
  SearchState.keyword rendered <> EmptyString ->
  let request := {| endpoint := SearchPharmacies (SearchState.keyword rendered);
                    bearer := token |} in
  service (world sys) request = (w, reply) ->
  settle reply = Threw error ->
  let sys' := exec (PharmacySearchPanel.handleSearch service token
                      (Some DOCTOR) rendered) sys in
  trace sys' = trace sys ++ [Fetch request]
  /\ sameForm (search sys) (search sys')
  /\ SearchState.message (search sys')
     = Some (errMessage error PharmacySearchPanel.searchFailed)
  /\ SearchState.loading (search sys') = false.
Proof.
  intros Htok Hkw request Hreply Hfail sys'. subst sys' request.
  unfold PharmacySearchPanel.handleSearch, PharmacySearchPanel.disabled.
  rewrite Htok.
  destruct (SearchState.keyword rendered) as [ | c rest ] eqn:Hk;
    [ congruence | ].
  cbn [roleIs Role_eqb negb orb truthy]. setters.
  rewrite !exec_updateSearch, exec_apiRequest.
  cbn [world trace panel search pendingReceivedCount].
  rewrite Hreply, Hfail. cbn. unfold sameForm. cbn. auto 10.
Qed.

(** X9. A search that succeeds replaces the results, reports their number
    in the message, ends not loading and leaves the typed prescription id
    alone; the first result, when there is one, becomes the selected
    pharmacy. *)
Theorem successful_search_reports_count token rendered sys w st data :
  noToken token = false ->
  SearchState.keyword rendered <> EmptyString ->
  let request := {| endpoint := SearchPharmacies (SearchState.keyword rendered);
                    bearer := token |} in
  service (world sys) request = (w, Ok2xx st data) ->
  let sys' := exec (PharmacySearchPanel.handleSearch service token
                      (Some DOCTOR) rendered) sys in
  trace sys' = trace sys ++ [Fetch request]
  /\ SearchState.results (search sys') = data
  /\ SearchState.message (search sys')
     = Some (PharmacySearchPanel.found (List.length data))
  /\ SearchState.loading (search sys') = false
  /\ SearchState.prescriptionId (search sys')
     = SearchState.prescriptionId (search sys)
  /\ (forall first rest, data = first :: rest ->
      SearchState.selectedPharmacyId (search sys') = Some (id first)).
Proof.
  intros Htok Hkw request Hreply sys'. subst sys' request.
  unfold PharmacySearchPanel.handleSearch, PharmacySearchPanel.disabled.
  rewrite Htok.
  destruct (SearchState.keyword rendered) as [ | c rest ] eqn:Hk;
    [ congruence | ].
  cbn [roleIs Role_eqb negb orb truthy]. setters.
  rewrite !exec_updateSearch, exec_apiRequest.
  cbn [world trace panel search pendingReceivedCount].
  rewrite Hreply. cbn [settle].
  destruct data as [ | first others ]; cbn; repeat split;
    intros f r E; [ discriminate | injection E as <- <-; reflexivity ].
Qed.

(** X10. A dispatch that fails sends that one request and keeps the form,
    the typed prescription id included, so that it can be submitted again;
    the reason of the failure becomes the message, the panel is no longer
    loading and no callback is called. *)
Theorem failed_dispatch_keeps_form token rendered sys chosen w reply error :
  noToken token = false ->
  SearchState.selectedPharmacyId rendered = Some chosen ->
  chosen <> 0 ->
  SearchState.prescriptionId rendered <> EmptyString ->
  let request := {| endpoint := Dispatch (SearchState.prescriptionId rendered) chosen;
                    bearer := token |} in
  service (world sys) request = (w, reply) ->
  settle reply = Threw error ->
  let sys' := exec (PharmacySearchPanel.handleDispatch service token
                      (Some DOCTOR) rendered) sys in
  trace sys' = trace sys ++ [Fetch request]
  /\ sameForm (search sys) (search sys')
  /\ SearchState.message (search sys')
     = Some (errMessage error PharmacySearchPanel.dispatchFailed)
  /\ SearchState.loading (search sys') = false.
Proof.
  intros Htok Hsel Hnz Hid request Hreply Hfail sys'. subst sys' request.
  unfold PharmacySearchPanel.handleDispatch, PharmacySearchPanel.disabled.
  rewrite Hsel, Htok. apply Z.eqb_neq in Hnz. rewrite Hnz.
  destruct (SearchState.prescriptionId rendered) as [ | c rest ] eqn:Hpid;
    [ congruence | ].
  cbn [roleIs Role_eqb negb orb truthy]. setters.
  rewrite !exec_updateSearch, exec_apiRequest.
  cbn [world trace panel search pendingReceivedCount].
  rewrite Hreply, Hfail. cbn. unfold sameForm. cbn. auto 10.
Qed.

(** X11. The pending count is a number only after a logged-in pharmacist's
    list fetch succeeded, and then it is the number of RECEIVED entries of
    that list, hence at most its length; for any other role or without a
    token the aggregator sets it to null without contacting the service. *)
Theorem pending_count_only_from_a_pharmacists_list authState sys :
  let request := {| endpoint := ListPrescriptions; bearer := App.token authState |} in
  let sys' := exec (App.refreshPendingReceivedCount service authState) sys in
  (forall n, pendingReceivedCount sys' = Some n ->
     App.role authState = Some PHARMACIST
     /\ noToken (App.token authState) = false
     /\ exists st data,
          snd (service (world sys) request) = Ok2xx st data
          /\ n = List.length (filter App.isReceived data)
          /\ (n <= List.length data)%nat)
  /\ (App.role authState <> Some PHARMACIST \/ noToken (App.token authState) = true ->
      pendingReceivedCount sys' = None
      /\ trace sys' = trace sys /\ world sys' = world sys).
Proof.
  intros request sys'. subst sys' request.
  unfold App.refreshPendingReceivedCount. split.
  - intros n. destruct (App.role authState) as [ [ | ] | ];
      cbn [roleIs Role_eqb negb orb]; try discriminate.
    destruct (noToken (App.token authState)); [ discriminate | ].
    rewrite exec_apiRequest.
    destruct (service (world sys) _) as [w reply]. cbn [snd].
    destruct reply as [ | st data | st ct body ]; cbn; try discriminate.
    intros H. injection H as <-. repeat split.
    exists st, data. repeat split. apply filter_length_le.
  - intros [ Hrole | Htok ].
    + destruct (App.role authState) as [ [ | ] | ]; try congruence;
        repeat split.
    + rewrite Htok, orb_true_r. repeat split.
Qed.

Lemma authenticated_fetch q token :
  noToken token = false ->
  authenticated (Fetch {| endpoint := q; bearer := token |}) = true.
Proof. intros H. cbn. rewrite H. reflexivity. Qed.

#[local] Hint Resolve authenticated_fetch : frame.

(** X12. Every request a handler sends carries a non-empty token: selecting,
    refreshing, searching, dispatching, the aggregator, and an advance as
    wired in [App] only add authenticated requests to the record. *)
Theorem requests_carry_a_token token role authState renderedPanel renderedSearch n :
  appends authenticated (PrescriptionsPanel.selectPrescription service token n)
  /\ appends authenticated
       (PrescriptionsPanel.loadPrescriptions service token renderedPanel)
  /\ appends authenticated
       (PharmacySearchPanel.handleSearch service token role renderedSearch)
  /\ appends authenticated
       (PharmacySearchPanel.handleDispatch service token role renderedSearch)
  /\ appends authenticated (App.refreshPendingReceivedCount service authState)
  /\ appends authenticated (App.advanceFromPanel service authState renderedPanel).
Proof.
  unfold App.advanceFromPanel, PrescriptionsPanel.handleAdvanceStatus,
    PrescriptionsPanel.loadPrescriptions, PrescriptionsPanel.selectPrescription,
    PharmacySearchPanel.handleSearch, PharmacySearchPanel.handleDispatch,
    App.refreshPendingReceivedCount, PrescriptionsPanel.disabled,
    PharmacySearchPanel.disabled.
  destruct (noToken (App.token authState)) eqn:Hauth;
    destruct (noToken token) eqn:Htok;
    rewrite ?orb_true_r; cbn [orb];
    repeat split; frame.
Qed.

(** X13. The first load: when the effect runs on a panel that has no
    selection yet and both fetches succeed, the list is shown, its first
    prescription is selected with its detail, no message is left and the
    panel is not loading. *)
Theorem first_load_shows_first_prescription
  token sys w1 st1 first rest w2 st2 detail :
  noToken token = false ->
  let ask q := {| endpoint := q; bearer := token |} in
  service (world sys) (ask ListPrescriptions) = (w1, Ok2xx st1 (first :: rest)) ->
  service w1 (ask (GetDetail (prescriptionId first))) = (w2, Ok2xx st2 detail) ->
  let sys' := exec (PrescriptionsView.onTokenChange service token PanelState.initial)
                sys in
  trace sys'
  = trace sys ++ [Fetch (ask ListPrescriptions);
                  Fetch (ask (GetDetail (prescriptionId first)))]
  /\ world sys' = w2
  /\ panel sys'
     = {| PanelState.prescriptions := first :: rest;
          PanelState.selectedId := Some (prescriptionId first);
          PanelState.selectedDetail := Some detail;
          PanelState.loading := false;
          PanelState.message := None |}.
Proof.
  intros Htok ask Hlist Hdetail sys'. subst sys'.
  unfold PrescriptionsView.onTokenChange. rewrite Htok. cbn [negb].
  unfold PrescriptionsPanel.loadPrescriptions, PrescriptionsPanel.disabled.
  rewrite Htok. setters. rewrite !exec_updatePanel, exec_apiRequest.
  cbn [world trace panel search pendingReceivedCount].
  fold (ask ListPrescriptions). rewrite Hlist. cbn [settle].
  rewrite exec_bind, exec_updatePanel. cbn [PanelState.selectedId PanelState.initial].
  rewrite selectPrescription_run by assumption.
  cbn [world trace panel search pendingReceivedCount].
  fold (ask (GetDetail (prescriptionId first))). rewrite Hdetail.
  cbn. rewrite <- app_assoc. auto.
Qed.

Lemma refreshPendingReceivedCount_keeps_panel authState s :
  panel (exec (App.refreshPendingReceivedCount service authState) s) = panel s.
Proof.
  unfold App.refreshPendingReceivedCount.
  destruct (_ || _); [ reflexivity | ].
  rewrite exec_apiRequest. destruct (service (world s) _) as [w reply].
  destruct (settle reply); reflexivity.
Qed.

(** X14. After a successful advance, as wired in [App], the panel shows
    what the service returned and not what it had: when the re-fetched list
    still contains the prescription, the list is the fetched list, the
    prescription stays selected and the detail is the re-fetched detail. *)
Theorem advance_shows_refetched_detail
  authState rendered d next sys w1 st1 done w2 st2 detail w3 st3 data :
  App.role authState = Some PHARMACIST ->
  noToken (App.token authState) = false ->
  PanelState.selectedDetail rendered = Some d ->
  PanelState.selectedId rendered = Some (prescriptionId d) ->
  PrescriptionsPanel.getNextStatus (status d) = Some next ->
  let ask q := {| endpoint := q; bearer := App.token authState |} in
  service (world sys) (ask (PatchStatus (prescriptionId d) next))
  = (w1, Ok2xx st1 done) ->
  service w1 (ask (GetDetail (prescriptionId d))) = (w2, Ok2xx st2 detail) ->
  service w2 (ask ListPrescriptions) = (w3, Ok2xx st3 data) ->
  In (prescriptionId d) (map prescriptionId data) ->
  let sys' := exec (App.advanceFromPanel service authState rendered) sys in
  panel sys'
  = {| PanelState.prescriptions := data;
       PanelState.selectedId := Some (prescriptionId d);
       PanelState.selectedDetail := Some detail;
       PanelState.loading := false;
       PanelState.message := Some PrescriptionsPanel.statusUpdated |}.
Proof.
  intros Hrole Htok Hd Hsel Hnext ask Hpatch Hdetail Hlist Hin sys'. subst sys'.
  unfold App.advanceFromPanel, PrescriptionsPanel.handleAdvanceStatus,
    PrescriptionsPanel.disabled.
  rewrite Hd, Htok, Hnext, Hrole. cbn [roleIs Role_eqb negb orb].
  unfold PrescriptionsPanel.setLoading at 1, PrescriptionsPanel.setMessage at 1.
  rewrite !exec_updatePanel, exec_apiRequest.
  cbn [world trace panel search pendingReceivedCount].
  fold (ask (PatchStatus (prescriptionId d) next)). rewrite Hpatch.
  cbn [settle].
  set (select := PrescriptionsPanel.selectPrescription service
                   (App.token authState) (prescriptionId d)).
  set (load := PrescriptionsPanel.loadPrescriptions service
                 (App.token authState) rendered).
  set (aggregate := App.refreshPendingReceivedCount service authState).
  unfold PrescriptionsPanel.setLoading, PrescriptionsPanel.setMessage.
  rewrite exec_bind, (exec_bind select), (exec_bind load), exec_updatePanel,
    exec_emit.
  cbn [exec updatePanel snd panel]. subst aggregate.
  rewrite refreshPendingReceivedCount_keeps_panel. cbn [panel].
  subst select. rewrite selectPrescription_run by assumption.
  cbn [world trace panel search pendingReceivedCount].
  fold (ask (GetDetail (prescriptionId d))). rewrite Hdetail. cbn [settle].
  subst load.
  unfold PrescriptionsPanel.loadPrescriptions, PrescriptionsPanel.disabled.
  rewrite Htok, Hsel. setters. rewrite !exec_updatePanel, exec_apiRequest.
  cbn [world trace panel search pendingReceivedCount].
  fold (ask ListPrescriptions). rewrite Hlist. cbn [settle].
  rewrite exec_bind, exec_updatePanel.
  destruct data as [ | first rest ]; [ destruct Hin | ].
  apply existsb_prescriptionId in Hin. rewrite Hin. reflexivity.
Qed.

(** X15. An advance button that is rendered and enabled always leads to the
    status update its label announces: the handler sends the PATCH for the
    status named after the arrow, and no other status update. *)
Theorem enabled_advance_button_sends_labelled_patch
  token role onStatusUpdated rendered sys label :
  PrescriptionsView.advanceButton token role rendered
  = Some {| PrescriptionsView.buttonDisabled := false;
            PrescriptionsView.buttonLabel := label |} ->
  (forall callback, onStatusUpdated = Some callback -> appends quiet callback) ->
  exists d next evs,
    PanelState.selectedDetail rendered = Some d
    /\ label = ("→ " ++ statusName next)%string
    /\ trace (exec (PrescriptionsPanel.handleAdvanceStatus service token role
                      onStatusUpdated rendered) sys)
       = trace sys
         ++ Fetch {| endpoint := PatchStatus (prescriptionId d) next;
                     bearer := token |} :: evs
    /\ forallb quiet evs = true.
Proof.
  unfold PrescriptionsView.advanceButton, PrescriptionsPanel.disabled.
  intros Hbutton Hcallback.
  destruct (PanelState.selectedDetail rendered) as [ d | ] eqn:Hd;
    [ | discriminate ].
  destruct role as [ [ | ] | ]; cbn [roleIs Role_eqb] in Hbutton;
    try discriminate.
  destruct (PrescriptionsPanel.getNextStatus (status d)) as [ next | ] eqn:Hnext;
    injection Hbutton as Hdisabled Hlabel;
    destruct (noToken token) eqn:Htok; try discriminate;
    [ | rewrite orb_true_r in Hdisabled; discriminate ].
  destruct (advance_single_patch service token onStatusUpdated rendered d next
              sys Hd Htok Hnext Hcallback) as [evs [T Q]].
  exists d, next, evs. auto.
Qed.

(** X16. When the advance button is not rendered, or is disabled while the
    panel is not loading, the handler never contacts the service. *)
Theorem blocked_advance_button_sends_nothing
  token role onStatusUpdated rendered sys :
  PrescriptionsView.advanceButton token role rendered = None
  \/ (exists label,
        PrescriptionsView.advanceButton token role rendered
        = Some {| PrescriptionsView.buttonDisabled := true;
                  PrescriptionsView.buttonLabel := label |}
        /\ PanelState.loading rendered = false) ->
  let sys' := exec (PrescriptionsPanel.handleAdvanceStatus service token role
                      onStatusUpdated rendered) sys in
  trace sys' = trace sys /\ world sys' = world sys.
Proof.
  unfold PrescriptionsView.advanceButton, PrescriptionsPanel.handleAdvanceStatus,
    PrescriptionsPanel.disabled.
  intros Hbutton.
  destruct (PanelState.selectedDetail rendered) as [ d | ];
    [ | split; reflexivity ].
  destruct role as [ [ | ] | ]; cbn [roleIs Role_eqb negb];
    rewrite ?orb_true_r; try (split; reflexivity).
  cbn [roleIs Role_eqb] in Hbutton.
  destruct Hbutton as [ H | [label [H Hloading]] ]; [ discriminate | ].
  injection H as Hdisabled _. rewrite Hloading in Hdisabled.
  destruct (noToken token); [ split; reflexivity | ].
  destruct (PrescriptionsPanel.getNextStatus (status d));
    [ discriminate | split; reflexivity ].
Qed.

(** X17. The dispatch button and the dispatch handler agree: an enabled
    button always leads to exactly one dispatch request for the typed
    prescription and the selected pharmacy, and a button disabled while the
    panel is not loading leads to nothing at all. *)
Theorem dispatch_button_matches_handler token role rendered sys :
  let sys' := exec (PharmacySearchPanel.handleDispatch service token role rendered)
                sys in
  (PharmacySearchView.dispatchDisabled token role rendered = false ->
   exists chosen,
     SearchState.selectedPharmacyId rendered = Some chosen
     /\ trace sys'
        = trace sys
          ++ [Fetch {| endpoint := Dispatch (SearchState.prescriptionId rendered)
                                     chosen;
                       bearer := token |}])
  /\ (PharmacySearchView.dispatchDisabled token role rendered = true ->
      SearchState.loading rendered = false -> sys' = sys).
Proof.
  intros sys'. subst sys'.
  unfold PharmacySearchView.dispatchDisabled, PharmacySearchPanel.handleDispatch,
    PharmacySearchPanel.noPharmacy.
  destruct (SearchState.selectedPharmacyId rendered) as [ chosen | ].
  - destruct (PharmacySearchPanel.disabled token role); cbn [orb].
    + split; [ discriminate | reflexivity ].
    + destruct (chosen =? 0); cbn [orb].
      * split; [ rewrite orb_true_r; discriminate | reflexivity ].
      * destruct (truthy (SearchState.prescriptionId rendered)); cbn [negb].
        -- split; [ | intros H Hl; rewrite Hl in H; discriminate ].
           intros _. exists chosen. split; [ reflexivity | ]. setters.
           rewrite !exec_updateSearch, exec_apiRequest.
           destruct (service _ _) as [w reply].
           destruct (settle reply); reflexivity.
        -- split; [ rewrite orb_true_r; discriminate | reflexivity ].
  - split; [ | reflexivity ].
    rewrite orb_true_r. discriminate.
Qed.

End Handlers.

(** * Properties of the composed request *)

Lemma header_assign_same key value obj :
  Http.header key (Http.assign key value obj) = Some value.
Proof.
  induction obj as [ | [k v] rest IH ]; cbn.
  - rewrite String.eqb_refl. reflexivity.
  - destruct (String.eqb k key) eqn:E; cbn.
    + rewrite String.eqb_refl. reflexivity.
    + rewrite E. exact IH.
Qed.

Lemma header_assign_other key other value obj :
  other <> key ->
  Http.header key (Http.assign other value obj) = Http.header key obj.
Proof.
  intros Hne. induction obj as [ | [k v] rest IH ]; cbn.
  - destruct (String.eqb_spec other key); [ contradiction | reflexivity ].
  - destruct (String.eqb_spec k other) as [ -> | Hk ]; cbn.
    + destruct (String.eqb_spec other key); [ contradiction | reflexivity ].
    + destruct (String.eqb k key); [ reflexivity | exact IH ].
Qed.

Lemma header_spread key target source :
  NoDup (Http.keys source) ->
  Http.header key (Http.spread target source)
  = match Http.header key source with
    | Some value => Some value
    | None => Http.header key target
    end.
Proof.
  unfold Http.spread. revert target.
  induction source as [ | [k v] rest IH ]; intros target Hnodup; cbn.
  - reflexivity.
  - inversion Hnodup as [ | ? ? Hnotin Hrest ]; subst.
    rewrite (IH _ Hrest).
    destruct (String.eqb_spec k key) as [ -> | Hk ].
    + assert (Hnone : Http.header key rest = None).
      { clear - Hnotin. induction rest as [ | [k' v'] rest IH ]; cbn in *.
        - reflexivity.
        - destruct (String.eqb_spec k' key) as [ -> | ]; [ tauto | ].
          apply IH. tauto. }
      rewrite Hnone. apply header_assign_same.
    + destruct (Http.header key rest); [ reflexivity | ].
      apply header_assign_other. exact Hk.
Qed.

(** X18. With a non-empty token and without [skipAuth], the composed
    headers always carry [Authorization: Bearer <token>], whatever headers
    the caller passed, its own [Authorization] included. *)
Theorem token_sets_the_authorization_header headers t :
  truthy t = true ->
  Http.header "Authorization" (Http.composedHeaders headers false (Some t))
  = Some ("Bearer " ++ t)%string.
Proof.
  intros Ht. unfold Http.composedHeaders. rewrite Ht. cbn [negb andb].
  apply header_assign_same.
Qed.

(** X19. The caller's headers win over the default and are otherwise passed
    on: a key the caller gives keeps the caller's value, [Content-Type] is
    [application/json] unless the caller gives one, and when no token is
    sent (none, empty, or [skipAuth]) [Authorization] is only what the
    caller gave. *)
Theorem caller_headers_are_passed_on given skipAuth token key :
  NoDup (Http.keys given) ->
  key <> "Authorization"%string \/ skipAuth = true \/ noToken token = true ->
  Http.header key (Http.composedHeaders (Some given) skipAuth token)
  = match Http.header key given with
    | Some value => Some value
    | None => if String.eqb "Content-Type" key
              then Some "application/json"%string else None
    end.
Proof.
  intros Hnodup Hcase. unfold Http.composedHeaders.
  assert (Plain : Http.header key
                    (Http.spread [("Content-Type", "application/json")] given)%string
                  = match Http.header key given with
                    | Some value => Some value
                    | None => if String.eqb "Content-Type" key
                              then Some "application/json"%string else None
                    end).
  { rewrite header_spread by assumption. reflexivity. }
  destruct token as [ t | ]; [ | exact Plain ].
  destruct (negb skipAuth && truthy t) eqn:Hauth; [ | exact Plain ].
  apply andb_prop in Hauth as [Hskip Ht].
  destruct Hcase as [ Hkey | [ Hs | Hn ] ].
  - rewrite header_assign_other by congruence. exact Plain.
  - rewrite Hs in Hskip. discriminate.
  - cbn in Hn. rewrite Ht in Hn. discriminate.
Qed.

(** X20. Every request of the two panels and of the aggregator is relative:
    its URL is the base URL followed by the path, and with a non-empty
    token its headers are exactly [Content-Type: application/json] and
    [Authorization: Bearer <token>]. *)
Theorem panel_requests_on_the_wire baseUrl q t :
  truthy t = true ->
  Http.url baseUrl (requestPath q) = (baseUrl ++ requestPath q)%string
  /\ Http.composedHeaders None false (Some t)
     = [("Content-Type", "application/json"); ("Authorization", "Bearer " ++ t)]%string.
Proof.
  intros Ht. split.
  - unfold Http.url. destruct q; reflexivity.
  - unfold Http.composedHeaders. rewrite Ht. reflexivity.
Qed.

Lemma unreserved_not_delimiter c : unreserved c = true -> delimiter c = false.
Proof.
  destruct c as [ [ | ] [ | ] [ | ] [ | ] [ | ] [ | ] [ | ] [ | ] ];
    vm_compute; congruence.
Qed.

Lemma escape_not_delimiter c :
  delimiter (hexDigit (nat_of_ascii c / 16)) = false
  /\ delimiter (hexDigit (nat_of_ascii c mod 16)) = false.
Proof.
  destruct c as [ [ | ] [ | ] [ | ] [ | ] [ | ] [ | ] [ | ] [ | ] ];
    vm_compute; auto.
Qed.

(** X21. The keyword of a pharmacy search cannot break out of its query
    parameter: the path is [/pharmacies?keyword=<encoded>&size=10] and the
    encoded keyword contains none of [& = ? # /], no space and no [+]. *)
Theorem search_keyword_stays_in_its_parameter kw :
  requestPath (SearchPharmacies kw)
  = ("/pharmacies?keyword=" ++ encodeURIComponent kw ++ "&size=10")%string
  /\ allChars (fun c => negb (delimiter c)) (encodeURIComponent kw) = true.
Proof.
  split; [ reflexivity | ].
  induction kw as [ | c rest IH ]; [ reflexivity | ].
  cbn [encodeURIComponent]. destruct (unreserved c) eqn:Hc.
  - cbn [allChars]. rewrite (unreserved_not_delimiter c Hc), IH. reflexivity.
  - destruct (escape_not_delimiter c) as [Hhigh Hlow].
    cbn [allChars]. rewrite Hhigh, Hlow, IH. reflexivity.
Qed.

(** X22. An error response whose body cannot be read gives the generic
    failure string: when neither [text()] nor [json()] settles, for any
    content type, and when a JSON content type comes with a body that does
    not parse, even if its text could be read. *)
Theorem unreadable_error_body_gives_generic_reason
  (T : Type) st contentType body :
  bodyJson body = None ->
  bodyText body = None
  \/ (exists ct, contentType = Some ct /\ includes ct "application/json" = true) ->
  settle (T := T) (NotOk st contentType body)
  = Threw (ApiError genericFailure st JNull).
Proof.
  intros Hjson Hcase. cbn [settle]. unfold readPayload. rewrite Hjson.
  destruct Hcase as [ Htext | [ct [-> Hct]] ].
  - rewrite Htext. destruct contentType as [ ct | ];
      [ destruct (includes ct _) | ]; reflexivity.
  - rewrite Hct. reflexivity.
Qed.

(** * Properties of the navigation *)

(** X23. No page that shows data is rendered without a token: with no token
    or an empty one, whatever the page, only the home page or the login page
    is on screen. *)
Theorem guarded_pages_need_a_token st activeTab :
  Shell.hasToken st = false ->
  Shell.renderPage st activeTab = Shell.HomeView
  \/ Shell.renderPage st activeTab = Shell.AuthView.
Proof.
  intros Htok. unfold Shell.renderPage. rewrite Htok.
  destruct (Shell.page st); auto.
Qed.

(** What every sequence of actions preserves. *)
Lemma navigation_invariant actions :
  forall st,
    (Shell.page st <> Shell.Prescriptions
     /\ (Shell.page st = Shell.DoctorWorkspacePage ->
         App.role (Shell.authState st) = Some DOCTOR)
     /\ (Shell.page st = Shell.PharmacistDashboard ->
         App.role (Shell.authState st) = Some PHARMACIST)
     /\ (App.role (Shell.authState st) = None ->
         App.token (Shell.authState st) = None)) ->
    let st' := fold_left Shell.step actions st in
    Shell.page st' <> Shell.Prescriptions
    /\ (Shell.page st' = Shell.DoctorWorkspacePage ->
        App.role (Shell.authState st') = Some DOCTOR)
    /\ (Shell.page st' = Shell.PharmacistDashboard ->
        App.role (Shell.authState st') = Some PHARMACIST)
    /\ (App.role (Shell.authState st') = None ->
        App.token (Shell.authState st') = None).
Proof.
  induction actions as [ | a rest IH ]; intros st Inv; [ exact Inv | ].
  cbn [fold_left]. apply IH. clear IH.
  destruct Inv as [I1 [I2 [I3 I4]]].
  destruct st as [ [token role] page ]. cbn in *.
  destruct a; cbn; unfold Shell.goToDashboard, Shell.homeCallToAction,
    Shell.hasToken; cbn;
    try (repeat split; intros; try discriminate; auto; fail).
  - destruct role as [ [ | ] | ]; cbn; repeat split; intros;
      try discriminate; auto.
  - destruct role as [ [ | ] | ]; cbn.
    + destruct (noToken token); cbn; repeat split; intros;
        try discriminate; auto.
    + destruct (noToken token); cbn; repeat split; intros;
        try discriminate; auto.
    + rewrite (I4 eq_refl). cbn. repeat split; intros; try discriminate; auto.
  - destruct role as [ [ | ] | ]; cbn; repeat split; intros;
      try discriminate; auto.
  - destruct role as [ [ | ] | ]; cbn; repeat split; intros;
      try discriminate; auto.
Qed.

(** X24. Whatever the user does, starting from the home page, the screen
    matches the role: what is rendered is the home page, the login page, the
    doctor workspace for a logged-in doctor, or the prescriptions panel with
    the status-updated callback for a logged-in pharmacist.  The two
    wrong-role notices and the prescriptions-only page are never reached. *)
Theorem navigation_matches_the_role actions activeTab :
  match Shell.renderPage (Shell.run actions) activeTab with
  | Shell.HomeView | Shell.AuthView => True
  | Shell.DoctorContent content token role =>
      content = Shell.renderContent activeTab
      /\ role = Some DOCTOR /\ noToken token = false
  | Shell.PrescriptionsOnly token role notify =>
      role = Some PHARMACIST /\ noToken token = false /\ notify = true
      /\ Shell.page (Shell.run actions) = Shell.PharmacistDashboard
  | Shell.DoctorNotice | Shell.PharmacistNotice => False
  end.
Proof.
  unfold Shell.run.
  destruct (navigation_invariant actions Shell.initial) as [I1 [I2 [I3 I4]]].
  { cbn. repeat split; intros; try discriminate; auto. }
  cbn zeta in *. set (st := fold_left Shell.step actions Shell.initial) in *.
  unfold Shell.renderPage, Shell.renderDoctorWorkspace,
    Shell.renderPharmacistDashboard, Shell.hasToken.
  destruct (Shell.page st) eqn:Hpage; try exact I; try congruence.
  - rewrite (I2 eq_refl). destruct (noToken _) eqn:Htok; cbn; auto.
  - rewrite (I3 eq_refl). destruct (noToken _) eqn:Htok; cbn; auto.
Qed.

Section Composition.

Context {World : Type} (service : Service World).

(** X25. Inside the doctor workspace an advance never does anything: the
    workspace renders its panels for a doctor only and hands them that
    role, so the advance handler of its prescriptions panel returns at
    once. *)
Theorem doctor_workspace_never_advances
  token role activeTab content panelToken panelRole rendered (sys : Sys World) :
  Shell.renderDoctorWorkspace token role activeTab
  = Shell.DoctorContent content panelToken panelRole ->
  exec (PrescriptionsPanel.handleAdvanceStatus service panelToken panelRole
          None rendered) sys
  = sys.
Proof.
  unfold Shell.renderDoctorWorkspace. intros Hview.
  destruct role as [ [ | ] | ]; cbn in Hview; try discriminate.
  injection Hview as _ _ <-.
  unfold PrescriptionsPanel.handleAdvanceStatus.
  destruct (PanelState.selectedDetail rendered); [ | reflexivity ].
  cbn [roleIs Role_eqb negb]. rewrite orb_true_r. reflexivity.
Qed.

End Composition.

(** * Properties of what the panels render *)

(** X26. The four statuses are told apart on screen: no two of them share a
    label or a badge colour. *)
Theorem status_labels_are_distinct (a b : PrescriptionStatus) :
  (PrescriptionsView.statusText a = PrescriptionsView.statusText b -> a = b)
  /\ (PrescriptionsView.statusBadgeClass a = PrescriptionsView.statusBadgeClass b
      -> a = b).
Proof.
  destruct a, b; split; intros H; try reflexivity; vm_compute in H;
    discriminate H.
Qed.

(** X27. For a pharmacist the advance button of a shown prescription reads
    as completed exactly when the status has no successor, that is for a
    CREATED prescription as well as for a COMPLETED one, and it is then
    disabled. *)
Theorem advance_button_reads_completed_without_successor token rendered d :
  PanelState.selectedDetail rendered = Some d ->
  exists button,
    PrescriptionsView.advanceButton token (Some PHARMACIST) rendered = Some button
    /\ (PrescriptionsView.buttonLabel button = PrescriptionsView.statusText COMPLETED
        <-> status d = CREATED \/ status d = COMPLETED)
    /\ (PrescriptionsView.buttonLabel button = PrescriptionsView.statusText COMPLETED
        -> PrescriptionsView.buttonDisabled button = true).
Proof.
  intros Hd. unfold PrescriptionsView.advanceButton. rewrite Hd.
  cbn [roleIs Role_eqb]. eexists. split; [ reflexivity | ].
  cbn [PrescriptionsView.buttonLabel PrescriptionsView.buttonDisabled].
  assert (T0 : PrescriptionsPanel.getNextStatus CREATED = None) by reflexivity.
  assert (T1 : PrescriptionsPanel.getNextStatus RECEIVED = Some DISPENSING)
    by reflexivity.
  assert (T2 : PrescriptionsPanel.getNextStatus DISPENSING = Some COMPLETED)
    by reflexivity.
  assert (T3 : PrescriptionsPanel.getNextStatus COMPLETED = None) by reflexivity.
  destruct (status d); rewrite ?T0, ?T1, ?T2, ?T3; rewrite ?orb_true_r;
    split; try (split; intros H; auto; try discriminate H);
    try (vm_compute in H; discriminate H);
    try (destruct H as [ H | H ]; discriminate H);
    try (intros H; vm_compute in H; discriminate H); auto.
Qed.

Section Buttons.

Context {World : Type} (service : Service World).

(** X28. Selecting a prescription highlights its list entries and no
    others, whether or not the detail could be fetched, and even without a
    token. *)
Theorem selected_entry_is_highlighted token n item (sys : Sys World) :
  PrescriptionsView.highlighted
    (panel (exec (PrescriptionsPanel.selectPrescription service token n) sys))
    item
  = (n =? prescriptionId item).
Proof.
  destruct (noToken token) eqn:Htok.
  - unfold PrescriptionsPanel.selectPrescription, PrescriptionsPanel.disabled.
    rewrite Htok. reflexivity.
  - rewrite selectPrescription_run by assumption. cbn zeta.
    destruct (service (world sys) _) as [w reply].
    destruct (settle reply); reflexivity.
Qed.

(** X29. The refresh button and the refresh handler agree: an enabled
    button always leads to the list request, followed by reads only, and a
    button disabled while the panel is not loading leads to nothing. *)
Theorem refresh_button_matches_handler token rendered (sys : Sys World) :
  let sys' := exec (PrescriptionsPanel.loadPrescriptions service token rendered)
                sys in
  (PrescriptionsView.refreshDisabled token rendered = false ->
   exists extra,
     trace sys'
     = trace sys ++ Fetch {| endpoint := ListPrescriptions; bearer := token |}
                      :: extra
     /\ forallb isRead extra = true)
  /\ (PrescriptionsView.refreshDisabled token rendered = true ->
      PanelState.loading rendered = false -> sys' = sys).
Proof.
  intros sys'. subst sys'. unfold PrescriptionsView.refreshDisabled,
    PrescriptionsPanel.disabled.
  destruct (noToken token) eqn:Htok; cbn [orb]; split.
  - discriminate.
  - intros _ _. unfold PrescriptionsPanel.loadPrescriptions,
      PrescriptionsPanel.disabled. rewrite Htok. reflexivity.
  - intros _.
    exact (proj1 (loadPrescriptions_refreshes service token rendered sys Htok)).
  - intros H Hl. rewrite Hl in H. discriminate H.
Qed.

(** X30. The search button is enabled even when no keyword is typed, and
    then the handler does nothing; with a keyword an enabled button leads to
    exactly one search request, and a button disabled while the panel is not
    loading leads to nothing. *)
Theorem search_button_matches_handler token role rendered (sys : Sys World) :
  let sys' := exec (PharmacySearchPanel.handleSearch service token role rendered)
                sys in
  (PharmacySearchView.searchDisabled token role rendered = false ->
   SearchState.keyword rendered = EmptyString -> sys' = sys)
  /\ (PharmacySearchView.searchDisabled token role rendered = false ->
      SearchState.keyword rendered <> EmptyString ->
      trace sys'
      = trace sys
        ++ [Fetch {| endpoint := SearchPharmacies (SearchState.keyword rendered);
                     bearer := token |}])
  /\ (PharmacySearchView.searchDisabled token role rendered = true ->
      SearchState.loading rendered = false -> sys' = sys).
Proof.
  intros sys'. subst sys'. unfold PharmacySearchView.searchDisabled,
    PharmacySearchPanel.handleSearch.
  destruct (PharmacySearchPanel.disabled token role); cbn [orb].
  - repeat split; try discriminate. intros _ _. rewrite orb_true_r. reflexivity.
  - split; [ intros _ ->; reflexivity | ]. split.
    + intros _ Hkw.
      destruct (SearchState.keyword rendered) as [ | c rest ];
        [ congruence | ].
      cbn [truthy negb orb]. setters.
      rewrite !exec_updateSearch, exec_apiRequest.
      destruct (service _ _) as [w reply].
      destruct (settle reply) as [ data | error ]; [ destruct data | ];
        reflexivity.
    + intros H Hl. rewrite Hl in H. discriminate H.
Qed.

End Buttons.

(** * The further properties on concrete inputs *)

Lemma failed_advance_only_reports_witness :
  let sys := Sample.start [Sample.detailOf 12 RECEIVED] in
  let sys' := exec (PrescriptionsPanel.handleAdvanceStatus Cases.readOnly
                      (Some "pharmacist-token") (Some PHARMACIST) None
                      (Sample.showing 12 RECEIVED)) sys in
  trace sys' = [Fetch {| endpoint := PatchStatus 12 DISPENSING;
                         bearer := Some "pharmacist-token" |}]
  /\ PanelState.message (panel sys') = Some "not found".
Proof.
  destruct (failed_advance_only_reports Cases.readOnly (Some "pharmacist-token")
              None (Sample.showing 12 RECEIVED) (Sample.detailOf 12 RECEIVED)
              DISPENSING (Sample.start [Sample.detailOf 12 RECEIVED])
              [Sample.detailOf 12 RECEIVED]
              (NotOk 409 (Some "application/json") Sample.notFound)
              (ApiError "not found" 409 (JObj [("message", JStr "not found")]))
              eq_refl eq_refl eq_refl eq_refl eq_refl)
    as [Htrace [_ [_ [Hmessage _]]]].
  split; [ exact Htrace | exact Hmessage ].
Defined.

Lemma failed_refresh_keeps_list_and_selection_witness :
  let sys := Sample.withPanel (Sample.showing 12 RECEIVED) (Sample.start tt) in
  let sys' := exec (PrescriptionsPanel.loadPrescriptions Sample.failing
                      (Some "pharmacist-token") (Sample.showing 12 RECEIVED)) sys in
  sameListAndSelection (panel sys) (panel sys')
  /\ PanelState.message (panel sys') = Some genericFailure.
Proof.
  destruct (failed_refresh_keeps_list_and_selection Sample.failing
              (Some "pharmacist-token") (Sample.showing 12 RECEIVED)
              (Sample.withPanel (Sample.showing 12 RECEIVED) (Sample.start tt))
              tt (NotOk 500 (Some "text/plain") Sample.emptyBody)
              (ApiError genericFailure 500 (JStr EmptyString))
              eq_refl eq_refl eq_refl)
    as [_ [_ [Hsame [Hmessage _]]]].
  split; [ exact Hsame | exact Hmessage ].
Defined.

Lemma no_token_no_request_witness :
  let sys := Sample.start [Sample.detailOf 12 RECEIVED] in
  exec (PrescriptionsPanel.loadPrescriptions Sample.clinic None
          (Sample.showing 12 RECEIVED)) sys
  = sys.
Proof.
  exact (proj1 (no_token_no_request Sample.clinic None (Some PHARMACIST) None
                  (Sample.showing 12 RECEIVED) 12
                  (Sample.start [Sample.detailOf 12 RECEIVED]) eq_refl)).
Defined.

Lemma sent_handlers_end_not_loading_witness :
  PanelState.loading
    (panel (exec (PrescriptionsPanel.loadPrescriptions Sample.clinic
                    (Some "pharmacist-token") (Sample.showing 12 RECEIVED))
              (Sample.start [Sample.detailOf 12 RECEIVED])))
  = false.
Proof.
  exact (proj1 (sent_handlers_end_not_loading Sample.clinic
                  (Some "pharmacist-token") None (Sample.showing 12 RECEIVED)
                  (Sample.detailOf 12 RECEIVED) DISPENSING
                  (Sample.start [Sample.detailOf 12 RECEIVED])
                  eq_refl eq_refl eq_refl)).
Defined.

Lemma failed_search_keeps_results_witness :
  let typed := Sample.choosing "center" [Sample.pharmacy7] (Some 7) "12" in
  let sys := Sample.withSearch typed (Sample.start [Sample.detailOf 12 CREATED]) in
  let sys' := exec (PharmacySearchPanel.handleSearch Cases.readOnly
                      (Some "doctor-token") (Some DOCTOR) typed) sys in
  sameForm (search sys) (search sys')
  /\ SearchState.message (search sys') = Some genericFailure.
Proof.
  destruct (failed_search_keeps_results Cases.readOnly (Some "doctor-token")
              (Sample.choosing "center" [Sample.pharmacy7] (Some 7) "12")
              (Sample.withSearch
                 (Sample.choosing "center" [Sample.pharmacy7] (Some 7) "12")
                 (Sample.start [Sample.detailOf 12 CREATED]))
              [Sample.detailOf 12 CREATED]
              (NotOk 500 None Sample.emptyBody)
              (ApiError genericFailure 500 (JStr EmptyString))
              eq_refl)
    as [_ [Hsame [Hmessage _]]].
  - discriminate.
  - reflexivity.
  - reflexivity.
  - split; [ exact Hsame | exact Hmessage ].
Defined.

Lemma successful_search_reports_count_witness :
  let typed := Sample.choosing "Pharmacy" [] None "12" in
  let sys := Sample.withSearch typed (Sample.start [Sample.detailOf 12 CREATED]) in
  let sys' := exec (PharmacySearchPanel.handleSearch Sample.clinic
                      (Some "doctor-token") (Some DOCTOR) typed) sys in
  SearchState.results (search sys') = [Sample.pharmacy7; Sample.pharmacy9]
  /\ SearchState.message (search sys')
     = Some (PharmacySearchPanel.found 2)
  /\ SearchState.selectedPharmacyId (search sys') = Some 7.
Proof.
  destruct (successful_search_reports_count Sample.clinic (Some "doctor-token")
              (Sample.choosing "Pharmacy" [] None "12")
              (Sample.withSearch (Sample.choosing "Pharmacy" [] None "12")
                 (Sample.start [Sample.detailOf 12 CREATED]))
              [Sample.detailOf 12 CREATED] 200
              [Sample.pharmacy7; Sample.pharmacy9] eq_refl)
    as [_ [Hresults [Hmessage [_ [_ Hfirst]]]]].
  - discriminate.
  - reflexivity.
  - split; [ exact Hresults | ]. split; [ exact Hmessage | ].
    exact (Hfirst Sample.pharmacy7 [Sample.pharmacy9] eq_refl).
Defined.

Lemma failed_dispatch_keeps_form_witness :
  let typed := Sample.choosing "center" [Sample.pharmacy7] (Some 7) "12" in
  let sys := Sample.withSearch typed (Sample.start [Sample.detailOf 12 RECEIVED]) in
  let sys' := exec (PharmacySearchPanel.handleDispatch Cases.readOnly
                      (Some "doctor-token") (Some DOCTOR) typed) sys in
  SearchState.prescriptionId (search sys') = "12"%string
  /\ SearchState.message (search sys') = Some "not found".
Proof.
  destruct (failed_dispatch_keeps_form Cases.readOnly (Some "doctor-token")
              (Sample.choosing "center" [Sample.pharmacy7] (Some 7) "12")
              (Sample.withSearch
                 (Sample.choosing "center" [Sample.pharmacy7] (Some 7) "12")
                 (Sample.start [Sample.detailOf 12 RECEIVED]))
              7 [Sample.detailOf 12 RECEIVED]
              (NotOk 409 (Some "application/json") Sample.notFound)
              (ApiError "not found" 409 (JObj [("message", JStr "not found")]))
              eq_refl eq_refl)
    as [_ [[_ [_ [_ Hid]]] [Hmessage _]]].
  - discriminate.
  - discriminate.
  - reflexivity.
  - reflexivity.
  - split; [ exact Hid | exact Hmessage ].
Defined.

Lemma first_load_shows_first_prescription_witness :
  let db := [Sample.detailOf 12 RECEIVED; Sample.detailOf 5 DISPENSING] in
  panel (exec (PrescriptionsView.onTokenChange Sample.clinic
                 (Some "pharmacist-token") PanelState.initial)
           (Sample.start db))
  = {| PanelState.prescriptions :=
         [Sample.summaryOf 12 RECEIVED; Sample.summaryOf 5 DISPENSING];
       PanelState.selectedId := Some 12;
       PanelState.selectedDetail := Some (Sample.detailOf 12 RECEIVED);
       PanelState.loading := false;
       PanelState.message := None |}.
Proof.
  exact (proj2 (proj2
    (first_load_shows_first_prescription Sample.clinic (Some "pharmacist-token")
       (Sample.start [Sample.detailOf 12 RECEIVED; Sample.detailOf 5 DISPENSING])
       [Sample.detailOf 12 RECEIVED; Sample.detailOf 5 DISPENSING] 200
       (Sample.summaryOf 12 RECEIVED) [Sample.summaryOf 5 DISPENSING]
       [Sample.detailOf 12 RECEIVED; Sample.detailOf 5 DISPENSING] 200
       (Sample.detailOf 12 RECEIVED) eq_refl eq_refl eq_refl))).
Defined.

Lemma advance_shows_refetched_detail_witness :
  let db := [Sample.detailOf 12 RECEIVED; Sample.detailOf 5 RECEIVED] in
  PanelState.selectedDetail
    (panel (exec (App.advanceFromPanel Sample.clinic Sample.pharmacist
                    (Sample.showing 12 RECEIVED))
              (Sample.start db)))
  = Some (Sample.detailOf 12 DISPENSING).
Proof.
  exact (f_equal PanelState.selectedDetail
    (advance_shows_refetched_detail Sample.clinic Sample.pharmacist
       (Sample.showing 12 RECEIVED) (Sample.detailOf 12 RECEIVED) DISPENSING
       (Sample.start [Sample.detailOf 12 RECEIVED; Sample.detailOf 5 RECEIVED])
       [Sample.detailOf 12 DISPENSING; Sample.detailOf 5 RECEIVED] 200 tt
       [Sample.detailOf 12 DISPENSING; Sample.detailOf 5 RECEIVED] 200
       (Sample.detailOf 12 DISPENSING)
       [Sample.detailOf 12 DISPENSING; Sample.detailOf 5 RECEIVED] 200
       [Sample.summaryOf 12 DISPENSING; Sample.summaryOf 5 RECEIVED]
       eq_refl eq_refl eq_refl eq_refl eq_refl eq_refl eq_refl eq_refl
       (or_introl eq_refl))).
Defined.

Lemma enabled_advance_button_sends_labelled_patch_witness :
  exists d next evs,
    PanelState.selectedDetail (Sample.showing 12 RECEIVED) = Some d
    /\ ("→ DISPENSING" = "→ " ++ statusName next)%string
    /\ trace (exec (PrescriptionsPanel.handleAdvanceStatus Sample.clinic
                      (Some "pharmacist-token") (Some PHARMACIST) None
                      (Sample.showing 12 RECEIVED))
                (Sample.start [Sample.detailOf 12 RECEIVED]))
       = [] ++ Fetch {| endpoint := PatchStatus (prescriptionId d) next;
                        bearer := Some "pharmacist-token" |} :: evs
    /\ forallb quiet evs = true.
Proof.
  apply (enabled_advance_button_sends_labelled_patch Sample.clinic
           (Some "pharmacist-token") (Some PHARMACIST) None
           (Sample.showing 12 RECEIVED)
           (Sample.start [Sample.detailOf 12 RECEIVED]) "→ DISPENSING").
  - reflexivity.
  - intros callback H. discriminate H.
Defined.

Lemma blocked_advance_button_sends_nothing_witness :
  let sys := Sample.start [Sample.detailOf 12 COMPLETED] in
  let sys' := exec (PrescriptionsPanel.handleAdvanceStatus Sample.clinic
                      (Some "pharmacist-token") (Some PHARMACIST) None
                      (Sample.showing 12 COMPLETED)) sys in
  trace sys' = trace sys /\ world sys' = world sys.
Proof.
  apply (blocked_advance_button_sends_nothing Sample.clinic
           (Some "pharmacist-token") (Some PHARMACIST) None
           (Sample.showing 12 COMPLETED)).
  right. exists "완료"%string. split; reflexivity.
Defined.

Lemma token_sets_the_authorization_header_witness :
  Http.header "Authorization"
    (Http.composedHeaders (Some [("Authorization", "Basic abc")]%string) false
       (Some "doctor-token"))
  = Some "Bearer doctor-token"%string.
Proof.
  exact (token_sets_the_authorization_header
           (Some [("Authorization", "Basic abc")]%string) "doctor-token" eq_refl).
Defined.

Lemma caller_headers_are_passed_on_witness :
  Http.header "Content-Type"
    (Http.composedHeaders (Some [("Content-Type", "text/plain"); ("X-Trace", "1")]%string)
       false (Some "doctor-token"))
  = Some "text/plain"%string.
Proof.
  apply (caller_headers_are_passed_on
           [("Content-Type", "text/plain"); ("X-Trace", "1")]%string false
           (Some "doctor-token") "Content-Type").
  - repeat constructor; cbn; intuition discriminate.
  - left. discriminate.
Defined.

Lemma panel_requests_on_the_wire_witness :
  Http.url "http://localhost:8080" (requestPath (Dispatch "12" 7))
  = "http://localhost:8080/prescriptions/12/dispatch"%string
  /\ Http.composedHeaders None false (Some "doctor-token")
     = [("Content-Type", "application/json");
        ("Authorization", "Bearer doctor-token")]%string.
Proof.
  exact (panel_requests_on_the_wire "http://localhost:8080" (Dispatch "12" 7)
           "doctor-token" eq_refl).
Defined.

Lemma unreadable_error_body_gives_generic_reason_witness :
  settle (T := unit)
    (NotOk 502 (Some "application/json; charset=utf-8")
       {| bodyText := Some "<html>Bad Gateway</html>"; bodyJson := None |})
  = Threw (ApiError genericFailure 502 JNull).
Proof.
  apply (unreadable_error_body_gives_generic_reason unit 502
           (Some "application/json; charset=utf-8")
           {| bodyText := Some "<html>Bad Gateway</html>"; bodyJson := None |}).
  - reflexivity.
  - right. exists "application/json; charset=utf-8"%string.
    split; reflexivity.
Defined.

Lemma guarded_pages_need_a_token_witness :
  let st := {| Shell.authState := {| App.token := Some EmptyString;
                                     App.role := Some PHARMACIST |};
               Shell.page := Shell.PharmacistDashboard |} in
  Shell.renderPage st Shell.create = Shell.HomeView
  \/ Shell.renderPage st Shell.create = Shell.AuthView.
Proof.
  apply (guarded_pages_need_a_token
           {| Shell.authState := {| App.token := Some EmptyString;
                                    App.role := Some PHARMACIST |};
              Shell.page := Shell.PharmacistDashboard |} Shell.create).
  reflexivity.
Defined.

Lemma doctor_workspace_never_advances_witness :
  let sys := Sample.start [Sample.detailOf 12 RECEIVED] in
  exec (PrescriptionsPanel.handleAdvanceStatus Sample.clinic (Some "doctor-token")
          (Some DOCTOR) None (Sample.showing 12 RECEIVED)) sys
  = sys.
Proof.
  apply (doctor_workspace_never_advances Sample.clinic (Some "doctor-token")
           (Some DOCTOR) Shell.prescriptions Shell.PrescriptionsPanel
           (Some "doctor-token") (Some DOCTOR) (Sample.showing 12 RECEIVED)).
  reflexivity.
Defined.

(** A session on concrete actions: a pharmacist logs in and opens the
    dashboard, then logs out and tries the dashboard again. *)
Example pharmacist_session :
  Shell.renderPage
    (Shell.run [Shell.Login "pharmacist-token" PHARMACIST; Shell.Dashboard])
    Shell.create
  = Shell.PrescriptionsOnly (Some "pharmacist-token") (Some PHARMACIST) true
  /\ Shell.renderPage
       (Shell.run [Shell.Login "pharmacist-token" PHARMACIST; Shell.Dashboard;
                   Shell.Logout; Shell.Dashboard; Shell.CallToAction])
       Shell.create
     = Shell.AuthView.
Proof. split; reflexivity. Qed.

Lemma advance_button_reads_completed_without_successor_witness :
  exists button,
    PrescriptionsView.advanceButton (Some "pharmacist-token") (Some PHARMACIST)
      (Sample.showing 5 CREATED) = Some button
    /\ PrescriptionsView.buttonLabel button = PrescriptionsView.statusText COMPLETED
    /\ PrescriptionsView.buttonDisabled button = true.
Proof.
  destruct (advance_button_reads_completed_without_successor
              (Some "pharmacist-token") (Sample.showing 5 CREATED)
              (Sample.detailOf 5 CREATED) eq_refl)
    as [button [Hbutton [Hlabel Hdisabled]]].
  exists button. split; [ exact Hbutton | ].
  assert (L : PrescriptionsView.buttonLabel button
              = PrescriptionsView.statusText COMPLETED)
    by (apply Hlabel; left; reflexivity).
  split; [ exact L | exact (Hdisabled L) ].
Defined.
